(** * GoDFS namenode: a shallow embedding of [namenode/namenode.go]

    The source file holds two copies of the namenode package, one after the
    other.  The first copy (lines 1-534) has the [ERROR] command, the [Err]
    field of [Packet] and a [MergeNode] that returns an [error]; it is
    embedded in module [V1].  The second copy (lines 536-1035) has neither,
    and its [MergeNode] recovers from its own panics; it is embedded in
    module [V2].  What the two copies share word for word (the header and
    node types, [ContainsHeader], the path arithmetic) is defined once,
    before the modules.

    Go constructs are modelled as follows.
    - [string] is a byte sequence: Rocq's [string].
    - [int] and [uint64] are [Z]; the only arithmetic the package performs
      on them is [dn.size += h.Size] on [uint64], written with its
      wrap-around ([wrap64]).
    - a slice is a [list]; a nil slice and an empty slice both have length
      0 and the package only ever tests [len], so both are [[]].
    - a [map] is a [gmap]; reading a missing key gives the zero value and
      [ok = false], writing into a nil map panics.
    - a pointer to a [filenode] is an index into the list of allocated
      nodes; the nil pointer is [None].
    - a panic, [defer] and [recover] are the [Panicked] outcome of the
      [Go] monad and [recovering]; the state reached before the panic is
      kept, as in Go.
    - an unbuffered channel is the list of the values sent on it so far.
    - [fmt.Println] appends its leading literal to [stdout]; its other
      arguments are evaluated (and may panic) before the line is written. *)

From Stdlib Require Import ZArith String Ascii List Bool Lia.
From stdpp Require Import gmap strings list fin_maps.

Import ListNotations.
Local Open Scope string_scope.
Local Open Scope list_scope.

(** ** Data model (lines 50-88) *)

(** [BlockHeader] (lines 57-63): a comparable struct, used as a map key. *)
Record BlockHeader : Type := mkBlockHeader {
  DatanodeID : string;  (* ID of datanode which holds the block *)
  Filename : string;    (* the remote name of the block including the path *)
  Size : Z;             (* uint64: size of Block in bytes *)
  BlockNum : Z;         (* int: the 0 indexed position of Block within file *)
  NumBlocks : Z         (* int: total number of Blocks in file *)
}.

(** [Block] (lines 51-54). *)
Record Block : Type := mkBlock {
  Header : BlockHeader;
  Bytes : list Byte.byte   (* the field [Data []byte] *)
}.

(** A pointer to a [filenode]: the index of the node among the allocated
    ones. *)
Definition ptr : Type := nat.

(** [filenode] (lines 76-80).  [None] is the nil pointer. *)
Record filenode : Type := mkFilenode {
  path : string;
  parent : option ptr;
  children : list (option ptr)
}.

(** [datanode] (lines 84-88). *)
Record datanode : Type := mkDatanode {
  ID : string;
  listed : bool;
  size : Z   (* uint64 *)
}.

(** Command codes (lines 38-48), the values of [iota]. *)
Definition HB : Z := 0.
Definition LIST : Z := 1.
Definition ACK : Z := 2.
Definition BLOCK : Z := 3.
Definition BLOCKACK : Z := 4.
Definition RETRIEVEBLOCK : Z := 5.
Definition DISTRIBUTE : Z := 6.
Definition GETHEADERS : Z := 7.
Definition ERROR : Z := 8.

(** The zero values [BlockHeader{}] and [*new(Block)]. *)
Definition zeroHeader : BlockHeader := mkBlockHeader "" "" 0 0 0.
Definition zeroBlock : Block := mkBlock zeroHeader [].

(** Equality of headers is Go's [==] on structs: field by field. *)
Definition header_eqb (a b : BlockHeader) : bool :=
  String.eqb (DatanodeID a) (DatanodeID b)
  && String.eqb (Filename a) (Filename b)
  && Z.eqb (Size a) (Size b)
  && Z.eqb (BlockNum a) (BlockNum b)
  && Z.eqb (NumBlocks a) (NumBlocks b).

#[global] Instance BlockHeader_eq_dec : EqDecision BlockHeader.
Proof. solve_decision. Defined.

Definition header_to_tuple (h : BlockHeader) : string * string * Z * Z * Z :=
  (DatanodeID h, Filename h, Size h, BlockNum h, NumBlocks h).

Definition header_of_tuple (t : string * string * Z * Z * Z) : BlockHeader :=
  let '(d, f, s, b, n) := t in mkBlockHeader d f s b n.

#[global] Instance BlockHeader_countable : Countable BlockHeader.
Proof.
  apply (inj_countable' header_to_tuple header_of_tuple).
  intros []; reflexivity.
Defined.

(** The mutable globals of the package (lines 21-35).  [P] is the packet
    type, which differs between the two copies.  [sendMap] maps a peer id
    to its connection; the encoder wrapped around the connection carries
    no state of its own. *)
Record State (P : Type) : Type := mkState {
  root : ptr;
  nodes : list filenode;
  filemap : gmap string (gmap Z (list BlockHeader));
  datanodemap : gmap string datanode;
  clientMap : gmap BlockHeader string;
  sendMap : gmap string nat;
  sendChannel : list P;
  headerChannel : list BlockHeader;
  stdout : list string
}.

Arguments mkState {P}.
Arguments root {P}.
Arguments nodes {P}.
Arguments filemap {P}.
Arguments datanodemap {P}.
Arguments clientMap {P}.
Arguments sendMap {P}.
Arguments sendChannel {P}.
Arguments headerChannel {P}.
Arguments stdout {P}.

(** ** The effect monad *)

Inductive outcome (A : Type) : Type :=
| Returned (a : A)
| Panicked (reason : string).

Arguments Returned {A}.
Arguments Panicked {A}.

Definition Go (S A : Type) : Type := S -> outcome A * S.

Definition ret {S A} (a : A) : Go S A := fun s => (Returned a, s).

Definition bind {S A B} (m : Go S A) (k : A -> Go S B) : Go S B :=
  fun s =>
    match m s with
    | (Returned a, s') => k a s'
    | (Panicked r, s') => (Panicked r, s')
    end.

Definition panic {S A} (reason : string) : Go S A :=
  fun s => (Panicked reason, s).

Definition gets {S A} (f : S -> A) : Go S A := fun s => (Returned (f s), s).

Definition modify {S} (f : S -> S) : Go S unit := fun s => (Returned tt, f s).

(** [defer func() { if r := recover(); r != nil { handler } }()] around
    [body]: a panic of [body] stops it, runs [handler] on the state
    reached so far, and the function returns normally. *)
Definition recovering {S} (body : Go S unit) (handler : Go S unit) : Go S unit :=
  fun s =>
    match body s with
    | (Returned tt, s') => (Returned tt, s')
    | (Panicked _, s') => handler s'
    end.

Declare Scope go_scope.
Delimit Scope go_scope with go.
Notation "x <- m ;; k" := (bind m (fun x => k))
  (at level 100, m at next level, right associativity) : go_scope.
Notation "m ;;; k" := (bind m (fun _ => k))
  (at level 100, right associativity) : go_scope.
Local Open Scope go_scope.

(** Run a list of actions in order, as a [for ... range] loop over a
    slice does. *)
Fixpoint for_each {S A} (l : list A) (body : A -> Go S unit) : Go S unit :=
  match l with
  | [] => ret tt
  | x :: rest => body x ;;; for_each rest body
  end.

Definition nil_deref : string := "invalid memory address or nil pointer dereference".
Definition out_of_range : string := "index out of range".
Definition nil_map_write : string := "assignment to entry in nil map".
Definition bad_make : string := "makeslice: len out of range".

(** [arr[i]] on a slice. *)
Definition index {S A} (arr : list A) (i : nat) : Go S A :=
  match arr !! i with
  | Some x => ret x
  | None => panic out_of_range
  end.

(** ** State updates *)

Section Updates.
Context {P : Type}.

Definition set_nodes (f : list filenode -> list filenode) (s : State P) : State P :=
  mkState (root s) (f (nodes s)) (filemap s) (datanodemap s) (clientMap s)
          (sendMap s) (sendChannel s) (headerChannel s) (stdout s).

Definition set_filemap
    (f : gmap string (gmap Z (list BlockHeader)) -> gmap string (gmap Z (list BlockHeader)))
    (s : State P) : State P :=
  mkState (root s) (nodes s) (f (filemap s)) (datanodemap s) (clientMap s)
          (sendMap s) (sendChannel s) (headerChannel s) (stdout s).

Definition set_datanodemap (f : gmap string datanode -> gmap string datanode)
    (s : State P) : State P :=
  mkState (root s) (nodes s) (filemap s) (f (datanodemap s)) (clientMap s)
          (sendMap s) (sendChannel s) (headerChannel s) (stdout s).

Definition set_clientMap (f : gmap BlockHeader string -> gmap BlockHeader string)
    (s : State P) : State P :=
  mkState (root s) (nodes s) (filemap s) (datanodemap s) (f (clientMap s))
          (sendMap s) (sendChannel s) (headerChannel s) (stdout s).

Definition set_sendMap (f : gmap string nat -> gmap string nat)
    (s : State P) : State P :=
  mkState (root s) (nodes s) (filemap s) (datanodemap s) (clientMap s)
          (f (sendMap s)) (sendChannel s) (headerChannel s) (stdout s).

(** [sendChannel <- p] *)
Definition send (p : P) : Go (State P) unit :=
  modify (fun s =>
    mkState (root s) (nodes s) (filemap s) (datanodemap s) (clientMap s)
            (sendMap s) (sendChannel s ++ [p]) (headerChannel s) (stdout s)).

(** [headerChannel <- h] *)
Definition enqueue (h : BlockHeader) : Go (State P) unit :=
  modify (fun s =>
    mkState (root s) (nodes s) (filemap s) (datanodemap s) (clientMap s)
            (sendMap s) (sendChannel s) (headerChannel s ++ [h]) (stdout s)).

(** [fmt.Println(line, ...)] *)
Definition println (line : string) : Go (State P) unit :=
  modify (fun s =>
    mkState (root s) (nodes s) (filemap s) (datanodemap s) (clientMap s)
            (sendMap s) (sendChannel s) (headerChannel s) (stdout s ++ [line])).

(** [*q] for a node pointer. *)
Definition deref (q : ptr) : Go (State P) filenode :=
  fun s =>
    match nodes s !! q with
    | Some nd => (Returned nd, s)
    | None => (Panicked nil_deref, s)
    end.

(** [&filenode{...}]: the new node is placed after the allocated ones. *)
Definition alloc (nd : filenode) : Go (State P) ptr :=
  fun s => (Returned (length (nodes s)), set_nodes (fun ns => ns ++ [nd]) s).

(** [q.children = append(q.children, n)] *)
Definition append_child (q n : ptr) : Go (State P) unit :=
  nd <- deref q ;;
  modify (set_nodes (fun ns =>
    <[q := mkFilenode (path nd) (parent nd) (children nd ++ [Some n])]> ns)).

(** [n.parent = q] *)
Definition set_parent (n q : ptr) : Go (State P) unit :=
  nd <- deref n ;;
  modify (set_nodes (fun ns =>
    <[n := mkFilenode (path nd) (Some q) (children nd)]> ns)).

(** [filemap[p][bn] = arr]; the inner map [filemap[p]] must exist. *)
Definition store_slot (p : string) (bn : Z) (arr : list BlockHeader) : Go (State P) unit :=
  fm <- gets filemap ;;
  match fm !! p with
  | Some blks => modify (set_filemap (fun fm => <[p := <[bn := arr]> blks]> fm))
  | None => panic nil_map_write
  end.

(** [filemap[p][bn]] as an rvalue with the comma-ok form: a nil inner
    map reads as missing. *)
Definition load_slot (p : string) (bn : Z) (s : State P) : option (list BlockHeader) :=
  match filemap s !! p with
  | Some blks => blks !! bn
  | None => None
  end.
End Updates.

(** ** What both copies share *)

(** [uint64] addition wraps around. *)
Definition wrap64 (z : Z) : Z := z mod 2 ^ 64.

(** [ContainsHeader] (lines 133-140). *)
Fixpoint ContainsHeader (arr : list BlockHeader) (h : BlockHeader) : bool :=
  match arr with
  | [] => false
  | v :: rest => if header_eqb h v then true else ContainsHeader rest h
  end.

(** [strings.Split(s, sep)] for a separator of one byte: the pieces of [s]
    between the occurrences of [sep]; [Split "" sep] is [[""]]. *)
Fixpoint Split (s : string) (sep : ascii) : list string :=
  match s with
  | EmptyString => [EmptyString]
  | String c rest =>
      if Ascii.eqb c sep then EmptyString :: Split rest sep
      else
        match Split rest sep with
        | [] => [String c EmptyString]
        | seg :: segs => String c seg :: segs
        end
  end.

(** [strings.Join(elems, sep)]. *)
Definition Join (elems : list string) (sep : string) : string :=
  String.concat sep elems.

Definition slash : ascii := "/"%char.

Section Namespace.
Context {P : Type}.

(** The inner loop of [MergeNode] (lines 179-185): the first child of
    [q] whose path is [partial].  Every child pointer met on the way is
    dereferenced by [v.path]. *)
Fixpoint find_child (cs : list (option ptr)) (partial : string)
    : Go (State P) (option ptr) :=
  match cs with
  | [] => ret None
  | None :: _ => panic nil_deref
  | Some v :: rest =>
      nd <- deref v ;;
      if String.eqb (path nd) partial then ret (Some v)
      else find_child rest partial
  end.

(** [datanodemap[dnid].size += n] through the pointer stored in the map. *)
Definition add_size (dnid : string) (n : Z) : Go (State P) unit :=
  dm <- gets datanodemap ;;
  match dm !! dnid with
  | Some dn =>
      modify (set_datanodemap
                (fun dm => <[dnid := mkDatanode (ID dn) (listed dn) (wrap64 (size dn + n))]> dm))
  | None => panic nil_deref
  end.

(** [dn.listed = true] through the pointer stored in the map under
    [dnid]. *)
Definition mark_listed (dnid : string) : Go (State P) unit :=
  modify (set_datanodemap
            (fun dm => alter (fun dn => mkDatanode (ID dn) true (size dn)) dnid dm)).

(** [Init] (lines 499-523), up to the listener: the root node with no
    children, empty maps, empty channels. *)
Definition Init : State P :=
  mkState 0 [mkFilenode "/" None []] ∅ ∅ ∅ ∅ [] [] ["Initializing Namenode"].

(** The body of the loop of [GETHEADERS] (lines 387-390 and 888-890):
    [headers[i] = blockMap[i][0]] for [i] from 0; [line] is what the
    iteration prints first, if anything. *)
Fixpoint first_headers (line : option string) (blockMap : gmap Z (list BlockHeader))
    (idxs : list nat) : Go (State P) (list BlockHeader) :=
  match idxs with
  | [] => ret []
  | i :: rest =>
      match line with Some l => println l | None => ret tt end ;;;
      h <- index (default [] (blockMap !! Z.of_nat i)) 0 ;;
      hs <- first_headers line blockMap rest ;;
      ret (h :: hs)
  end.
End Namespace.

(** How the walk of [MergeNode] leaves one iteration: with the next
    value of [q], or by returning from the function. *)
Inductive walk : Type :=
| Next (q : ptr)
| Return (err : option string).

(** The loop [for i, _ := range path_arr] of [MergeNode] around its body
    [step]; the local [q] is carried from one iteration to the next.
    Leaving the loop at its end is [return nil]. *)
Fixpoint walk_from {S} (step : ptr -> nat -> Go S walk) (q : ptr) (idxs : list nat)
    : Go S (option string) :=
  match idxs with
  | [] => ret None
  | i :: rest =>
      w <- step q i ;;
      match w with
      | Next q' => walk_from step q' rest
      | Return e => ret e
      end
  end.

(** * The first copy (lines 1-534) *)

Module V1.

(** [Packet] (lines 66-73). *)
Record Packet : Type := mkPacket {
  SRC : string;
  DST : string;
  CMD : Z;
  Err : string;
  Data : Block;
  Headers : list BlockHeader
}.

Definition set_DST (d : string) (r : Packet) : Packet :=
  mkPacket (SRC r) d (CMD r) (Err r) (Data r) (Headers r).
Definition set_CMD (c : Z) (r : Packet) : Packet :=
  mkPacket (SRC r) (DST r) c (Err r) (Data r) (Headers r).
Definition set_Err (e : string) (r : Packet) : Packet :=
  mkPacket (SRC r) (DST r) (CMD r) e (Data r) (Headers r).
Definition set_Data (b : Block) (r : Packet) : Packet :=
  mkPacket (SRC r) (DST r) (CMD r) (Err r) b (Headers r).
Definition set_Headers (hs : list BlockHeader) (r : Packet) : Packet :=
  mkPacket (SRC r) (DST r) (CMD r) (Err r) (Data r) hs.

(** The global [id]: assigned once, in [Init] (line 517), before the
    first connection is accepted. *)
Definition id : string := "NN".

(** The guard of [MergeNode] (line 158).  [&h == nil] is false for a
    local variable. *)
Definition invalid_header (h : BlockHeader) : bool :=
  String.eqb (DatanodeID h) "" || String.eqb (Filename h) ""
  || (Size h <? 0)%Z || (BlockNum h <? 0)%Z || (NumBlocks h <? BlockNum h)%Z.

(** One iteration of the loop of [MergeNode] (lines 171-226). *)
Definition merge_at (h : BlockHeader) (path_arr : list string) (q : ptr) (i : nat)
    : Go (State Packet) walk :=
  let path := Filename h in
  if (i =? 0)%nat then ret (Next q)
  else
    let partial := Join (take (i + 1) path_arr) "/" in
    nd <- deref q ;;
    found <- find_child (children nd) partial ;;
    match found with
    | Some v =>
        if String.eqb partial path then
          fm <- gets filemap ;;
          match fm !! path with
          | None => ret (Return (Some "Attempted to add to filenode that does not exist!"))
          | Some blks =>
              match blks !! BlockNum h with
              | None => store_slot partial (BlockNum h) [h]
              | Some arr =>
                  if negb (ContainsHeader arr h)
                  then store_slot path (BlockNum h) (arr ++ [h])
                  else ret tt
              end ;;;
              add_size (DatanodeID h) (Size h) ;;;
              ret (Next v)
          end
        else ret (Next v)
    | None =>
        n <- alloc (mkFilenode partial (Some q) [None]) ;;
        (if String.eqb partial path then
           modify (set_filemap (fun fm => <[partial := ∅]> fm)) ;;;
           store_slot partial (BlockNum h) [h] ;;;
           add_size (DatanodeID h) (Size h)
         else ret tt) ;;;
        set_parent n q ;;;
        append_child q n ;;;
        ret (Next n)
    end.

(** [MergeNode] (lines 156-228).  The result is the returned [error]:
    [None] is [nil]. *)
Definition MergeNode (h : BlockHeader) : Go (State Packet) (option string) :=
  if invalid_header h then ret (Some "Invalid header input")
  else
    dm <- gets datanodemap ;;
    match dm !! DatanodeID h with
    | None =>
        ret (Some ("BlockHeader DatanodeID: " +:+ DatanodeID h +:+ " does not exist in map"))
    | Some _ =>
        let path_arr := Split (Filename h) slash in
        q <- gets root ;;
        walk_from (merge_at h path_arr) q (seq 0 (length path_arr))
    end.

(** [HandleBlockHeaders] (lines 126-130) on the headers received from
    [headerChannel]; the returned error is dropped.  Nothing on this path
    recovers: a panic of [MergeNode] ends the process. *)
Definition HandleBlockHeaders (hs : list BlockHeader) : Go (State Packet) unit :=
  for_each hs (fun h => _ <- MergeNode h ;; ret tt).

(** [DistributeBlock] (lines 239-275).  [rnd] stands for the number drawn
    by [rand.Intn] after seeding from the clock: the index chosen is
    [rnd mod len(nodeIDs)].  Go leaves the order in which a map is ranged
    over open; the model ranges in the order of [map_to_list]. *)
Definition DistributeBlock (rnd : nat) (b : Block) : Go (State Packet) unit :=
  recovering
    (dm <- gets datanodemap ;;
     if (base.size dm <? 1)%nat then
       println "No connected datanodes, cannot save file"
     else
       let nodeIDs := (fun kv => ID (snd kv)) <$> map_to_list dm in
       let nodeindex := (rnd mod length nodeIDs)%nat in
       dst <- index nodeIDs nodeindex ;;
       let hdr := mkBlockHeader dst (Filename (Header b)) (Size (Header b))
                                (BlockNum (Header b)) (NumBlocks (Header b)) in
       send (mkPacket id dst BLOCK "" (mkBlock hdr (Bytes b)) []))
    (println "Recovered from panic " ;;; println "Unable to distribute block ").

(** The client half of the switch of [HandlePacket] (lines 332-393).
    [None] is a [return] before the reply is sent; [Some r] leaves the
    switch with the reply [r]. *)
Definition client_switch (rnd : nat) (p r : Packet) : Go (State Packet) (option Packet) :=
  if (CMD p =? HB)%Z then
    println "Received client connection" ;;; ret None
  else if (CMD p =? DISTRIBUTE)%Z then
    println "Distributing Block" ;;;
    DistributeBlock rnd (Data p) ;;;
    ret (Some (set_CMD ACK r))
  else if (CMD p =? RETRIEVEBLOCK)%Z then
    let r := set_CMD RETRIEVEBLOCK r in
    if negb (length (Headers p) =? 1)%nat then
      let r := set_Err "Invalid Header received" (set_CMD ERROR r) in
      println "Invalid RETRIEVEBLOCK Packet , " ;;; ret (Some r)
    else
      h0 <- index (Headers p) 0 ;;
      let r := set_DST (DatanodeID h0) r in
      println "Retrieving Block for client " ;;;
      let r := set_Headers (Headers p) r in
      modify (set_clientMap (fun cm => <[h0 := SRC p]> cm)) ;;;
      ret (Some r)
  else if (CMD p =? GETHEADERS)%Z then
    let r := set_CMD GETHEADERS r in
    if negb (length (Headers p) =? 1)%nat then
      let r := set_Err "Invalid Header received" (set_CMD ERROR r) in
      println "Received invalid Header Packet, " ;;; ret (Some r)
    else
      h0 <- index (Headers p) 0 ;;
      println "Retrieving headers for client using " ;;;
      let fname := Filename h0 in
      fm <- gets filemap ;;
      match fm !! fname with
      | None =>
          let r := set_Err ("File not found " +:+ fname) (set_CMD ERROR r) in
          println "Requested file in filesystem, " ;;; ret (Some r)
      | Some blockMap =>
          match blockMap !! 0%Z with
          | None =>
              ret (Some (set_Err "Could not locate first block in file" (set_CMD ERROR r)))
          | Some blk0 =>
              first <- index blk0 0 ;;
              let numBlocks := NumBlocks first in
              if (numBlocks <? 0)%Z then panic bad_make
              else
                headers <- first_headers (Some "") blockMap (seq 0 (Z.to_nat numBlocks)) ;;
                let r := set_Headers headers r in
                println "Retrieved headers " ;;; ret (Some r)
          end
      end
  else ret (Some r).

(** The datanode half (lines 396-440).  [dn] is the pointer stored in
    [datanodemap] under [p.SRC], nil when there is none; [dn.listed]
    dereferences it. *)
Definition datanode_switch (p r : Packet) : Go (State Packet) (option Packet) :=
  dm <- gets datanodemap ;;
  match dm !! SRC p with
  | None => panic nil_deref
  | Some dn =>
      let listed := listed dn in
      if (CMD p =? HB)%Z then
        ret (Some (set_CMD (if negb listed then LIST else ACK) r))
      else if (CMD p =? LIST)%Z then
        println "Listing directory contents from %s " ;;;
        for_each (Headers p) enqueue ;;;
        mark_listed (SRC p) ;;;
        ret (Some (set_CMD ACK r))
      else if (CMD p =? BLOCKACK)%Z then
        (if (length (Headers p) =? 1)%nat then
           h0 <- index (Headers p) 0 ;; enqueue h0
         else ret tt) ;;;
        let r := set_CMD ACK r in
        h0 <- index (Headers p) 0 ;;
        println "Received BLOCKACK " ;;;
        ret (Some r)
      else if (CMD p =? BLOCK)%Z then
        println "Received Block Packet with header" ;;;
        ret (Some (set_Data (Data p) (set_CMD BLOCK (set_DST "C" r))))
      else ret (Some r)
  end.

(** [HandlePacket] (lines 313-447). *)
Definition HandlePacket (rnd : nat) (p : Packet) : Go (State Packet) unit :=
  recovering
    (if String.eqb (SRC p) "" then println "Badpacket"
     else
       let r := mkPacket id (SRC p) ACK "" zeroBlock [] in
       reply <- (if String.eqb (SRC p) "C" then client_switch rnd p r
                 else datanode_switch p r) ;;
       match reply with
       | None => ret tt
       | Some r => println "sending packet " ;;; send r
       end)
    (println "Recovered from panic " ;;; println "Unable to handle packet ").

(** [CheckConnection] (lines 450-472); [conn] names the connection. *)
Definition CheckConnection (rnd : nat) (conn : nat) (p : Packet) : Go (State Packet) unit :=
  (if String.eqb (SRC p) "C" then
     println "Adding new client conncetion" ;;;
     modify (set_sendMap (fun sm => <[SRC p := conn]> sm))
   else
     dm <- gets datanodemap ;;
     match dm !! SRC p with
     | None =>
         println "Adding new datanode :" ;;;
         modify (set_datanodemap (fun dm => <[SRC p := mkDatanode (SRC p) false 0]> dm))
     | Some _ => println "Datanode %s reconnected "
     end ;;;
     modify (set_sendMap (fun sm => <[SRC p := conn]> sm))) ;;;
  HandlePacket rnd p.

End V1.

(** * The second copy (lines 536-1035) *)

Module V2.

(** [Packet] (lines 596-602): no [Err] field. *)
Record Packet : Type := mkPacket {
  SRC : string;
  DST : string;
  CMD : Z;
  Data : Block;
  Headers : list BlockHeader
}.

Definition set_DST (d : string) (r : Packet) : Packet :=
  mkPacket (SRC r) d (CMD r) (Data r) (Headers r).
Definition set_CMD (c : Z) (r : Packet) : Packet :=
  mkPacket (SRC r) (DST r) c (Data r) (Headers r).
Definition set_Data (b : Block) (r : Packet) : Packet :=
  mkPacket (SRC r) (DST r) (CMD r) b (Headers r).
Definition set_Headers (hs : list BlockHeader) (r : Packet) : Packet :=
  mkPacket (SRC r) (DST r) (CMD r) (Data r) hs.

(** The global [id], assigned once in [Init] (line 1018). *)
Definition id : string := "NN".

(** One iteration of the loop of [MergeNode] (lines 686-741).  A segment
    that is found gets ["/"] appended before it is compared with the
    whole path. *)
Definition merge_at (h : BlockHeader) (path_arr : list string) (q : ptr) (i : nat)
    : Go (State Packet) walk :=
  let path := Filename h in
  if (i =? 0)%nat then ret (Next q)
  else
    let partial := Join (take (i + 1) path_arr) "/" in
    nd <- deref q ;;
    found <- find_child (children nd) partial ;;
    match found with
    | Some v =>
        let partial := partial +:+ "/" in
        if String.eqb partial path then
          slot <- gets (load_slot path (BlockNum h)) ;;
          match slot with
          | None =>
              println ("Trying to add node to filemap location that doesnt exist " +:+ path) ;;;
              ret (Return None)
          | Some arr =>
              println "Adding Blockheader " ;;;
              (if negb (ContainsHeader arr h) then
                 store_slot path (BlockNum h) (arr ++ [h]) ;;;
                 add_size (DatanodeID h) (Size h)
               else ret tt) ;;;
              ret (Next v)
          end
        else ret (Next v)
    | None =>
        println "Creating node at " ;;;
        n <- alloc (mkFilenode partial (Some q) [None]) ;;
        (if String.eqb partial path then
           modify (set_filemap (fun fm => <[partial := ∅]> fm)) ;;;
           store_slot partial (BlockNum h) [h]
         else ret tt) ;;;
        set_parent n q ;;;
        append_child q n ;;;
        ret (Next n)
    end.

(** [MergeNode] (lines 672-742): no result, and its own [recover]. *)
Definition MergeNode (h : BlockHeader) : Go (State Packet) unit :=
  recovering
    (let path_arr := Split (Filename h) slash in
     q <- gets root ;;
     _ <- walk_from (merge_at h path_arr) q (seq 0 (length path_arr)) ;;
     ret tt)
    (println "Recovered from panic " ;;; println "Unable to merge node ").

(** [HandleBlockHeaders] (lines 655-659). *)
Definition HandleBlockHeaders (hs : list BlockHeader) : Go (State Packet) unit :=
  for_each hs MergeNode.

(** Sorting by [size] (lines 774-777).  [sort.Sort] promises no order
    among equal sizes and the slice is filled in the order of a map
    range; the model sorts the nodes in the order of [map_to_list] by
    insertion and keeps equal sizes in that order. *)
Fixpoint insert_by_size (dn : datanode) (l : list datanode) : list datanode :=
  match l with
  | [] => [dn]
  | x :: rest =>
      if (size x <? size dn)%Z || (size x =? size dn)%Z then x :: insert_by_size dn rest
      else dn :: l
  end.

Definition sort_by_size (l : list datanode) : list datanode :=
  foldr insert_by_size [] (reverse l).

(** [DistributeBlock] (lines 753-790): least loaded first. *)
Definition DistributeBlock (b : Block) : Go (State Packet) unit :=
  recovering
    (dm <- gets datanodemap ;;
     if (base.size dm <? 1)%nat then
       println "No connected datanodes, cannot save file"
     else
       let sizeArr := sort_by_size (snd <$> map_to_list dm) in
       first <- index sizeArr 0 ;;
       let dst := ID first in
       let hdr := mkBlockHeader dst (Filename (Header b)) (Size (Header b))
                                (BlockNum (Header b)) (NumBlocks (Header b)) in
       add_size dst (Size hdr) ;;;
       send (mkPacket id dst BLOCK (mkBlock hdr (Bytes b)) []))
    (println "Recovered from panic " ;;; println "Unable to distribute block ").

(** The client half of [HandlePacket] (lines 847-893). *)
Definition client_switch (p r : Packet) : Go (State Packet) (option Packet) :=
  if (CMD p =? HB)%Z then
    println "Received client connection" ;;; ret None
  else if (CMD p =? DISTRIBUTE)%Z then
    println "Distributing Block" ;;;
    DistributeBlock (Data p) ;;;
    ret (Some (set_CMD ACK r))
  else if (CMD p =? RETRIEVEBLOCK)%Z then
    let r := set_CMD RETRIEVEBLOCK r in
    if negb (length (Headers p) =? 1)%nat then
      println "Bad RETRIEVEBLOCK request Packet , " ;;; ret None
    else
      h0 <- index (Headers p) 0 ;;
      let r := set_DST (DatanodeID h0) r in
      println "Retrieving Block for client " ;;;
      let r := set_Headers (Headers p) r in
      modify (set_clientMap (fun cm => <[h0 := SRC p]> cm)) ;;;
      ret (Some r)
  else if (CMD p =? GETHEADERS)%Z then
    let r := set_CMD GETHEADERS r in
    if negb (length (Headers p) =? 1)%nat then
      println "Bad Header request Packet , " ;;; ret None
    else
      h0 <- index (Headers p) 0 ;;
      println "Retrieving headers for client using " ;;;
      let fname := Filename h0 in
      fm <- gets filemap ;;
      match fm !! fname with
      | None => println "BadHeader request Packet"
      | Some _ => ret tt
      end ;;;
      let blockMap := default ∅ (fm !! fname) in
      first <- index (default [] (blockMap !! 0%Z)) 0 ;;
      let numBlocks := NumBlocks first in
      if (numBlocks <? 0)%Z then panic bad_make
      else
        headers <- first_headers None blockMap (seq 0 (Z.to_nat numBlocks)) ;;
        ret (Some (set_Headers headers r))
  else ret (Some r).

(** The datanode half (lines 896-941). *)
Definition datanode_switch (p r : Packet) : Go (State Packet) (option Packet) :=
  dm <- gets datanodemap ;;
  match dm !! SRC p with
  | None => panic nil_deref
  | Some dn =>
      let listed := listed dn in
      if (CMD p =? HB)%Z then
        ret (Some (set_CMD (if negb listed then LIST else ACK) r))
      else if (CMD p =? LIST)%Z then
        println "Listing directory contents from %s " ;;;
        for_each (Headers p) (fun h => println "" ;;; enqueue h) ;;;
        mark_listed (SRC p) ;;;
        ret (Some (set_CMD ACK r))
      else if (CMD p =? BLOCKACK)%Z then
        (if (length (Headers p) =? 1)%nat then
           h0 <- index (Headers p) 0 ;; enqueue h0
         else ret tt) ;;;
        let r := set_CMD ACK r in
        h0 <- index (Headers p) 0 ;;
        println "Received BLOCKACK " ;;;
        ret (Some r)
      else if (CMD p =? BLOCK)%Z then
        println "Received Block Packet with header" ;;;
        ret (Some (set_Data (Data p) (set_CMD BLOCK (set_DST "C" r))))
      else ret (Some r)
  end.

(** [HandlePacket] (lines 828-948). *)
Definition HandlePacket (p : Packet) : Go (State Packet) unit :=
  recovering
    (if String.eqb (SRC p) "" then println "Badpacket"
     else
       let r := mkPacket id (SRC p) ACK zeroBlock [] in
       reply <- (if String.eqb (SRC p) "C" then client_switch p r
                 else datanode_switch p r) ;;
       match reply with
       | None => ret tt
       | Some r => println "sending packet " ;;; send r
       end)
    (println "Recovered from panic " ;;; println "Unable to handle packet ").

(** [CheckConnection] (lines 951-973). *)
Definition CheckConnection (conn : nat) (p : Packet) : Go (State Packet) unit :=
  (if String.eqb (SRC p) "C" then
     println "Adding new client conncetion" ;;;
     modify (set_sendMap (fun sm => <[SRC p := conn]> sm))
   else
     dm <- gets datanodemap ;;
     match dm !! SRC p with
     | None =>
         println "Adding new datanode :" ;;;
         modify (set_datanodemap (fun dm => <[SRC p := mkDatanode (SRC p) false 0]> dm))
     | Some _ => println "Datanode %s reconnected "
     end ;;;
     modify (set_sendMap (fun sm => <[SRC p := conn]> sm))) ;;;
  HandlePacket p.

End V2.

(** * States and packets used in the statements *)

(** Everything but the two channels and [stdout]: the tree, the
    placement index, the datanode records, the pending-request table and
    the send map. *)
Definition stores {P} (s : State P) :=
  (root s, nodes s, filemap s, datanodemap s, clientMap s, sendMap s).

(** The commands the client half of the switch has a case for, and those
    the datanode half has a case for. *)
Definition client_case (c : Z) : bool :=
  (c =? HB)%Z || (c =? DISTRIBUTE)%Z || (c =? RETRIEVEBLOCK)%Z || (c =? GETHEADERS)%Z.

Definition datanode_case (c : Z) : bool :=
  (c =? HB)%Z || (c =? LIST)%Z || (c =? BLOCKACK)%Z || (c =? BLOCK)%Z.

(** A packet that no case of the switch for its peer class handles, sent
    by the client or by a datanode that has a record. *)
Definition unhandled (dm : gmap string datanode) (src : string) (cmd : Z) : Prop :=
  src ≠ "" ∧
  if String.eqb src "C" then client_case cmd = false
  else datanode_case cmd = false ∧ is_Some (dm !! src).

Module Run1.
Import V1.

(** The reply template of [HandlePacket] (line 328). *)
Definition template (p : Packet) : Packet := mkPacket "NN" (SRC p) ACK "" zeroBlock [].

(** Datanode [D1] connects with a heartbeat on connection 1. *)
Definition D1_hb : Packet := mkPacket "D1" "NN" HB "" zeroBlock [].
Definition booted : State Packet := snd (CheckConnection 0 1 D1_hb Init).

(** Block 0 of the one-block file [/f], held by [D1]. *)
Definition hf : BlockHeader := mkBlockHeader "D1" "/f" 500 0 1.
Definition stored : State Packet := snd (MergeNode hf booted).
Definition with_size (z : Z) (s : State Packet) : State Packet :=
  set_datanodemap (fun dm => <["D1" := mkDatanode "D1" false z]> dm) s.

(** Headers of [/f] whose block number is equal to, and above, the number
    of blocks. *)
Definition h_eq : BlockHeader := mkBlockHeader "D1" "/f" 500 1 1.
Definition h_over : BlockHeader := mkBlockHeader "D1" "/f" 500 2 1.

(** Block 0 of the two-block file [/g] is merged, block 1 is not. *)
Definition g0 : BlockHeader := mkBlockHeader "D1" "/g" 500 0 2.
Definition half_listed : State Packet := snd (MergeNode g0 booted).
Definition get_g : Packet :=
  mkPacket "C" "NN" GETHEADERS "" zeroBlock [mkBlockHeader "" "/g" 0 0 0].

(** A [BLOCKACK] of [D1] with no header, and one from the client. *)
Definition empty_blockack : Packet := mkPacket "D1" "NN" BLOCKACK "" zeroBlock [].
Definition client_list : Packet := mkPacket "C" "NN" LIST "" zeroBlock [].

(** Block 0 of [/a/b].  Merging it into [booted] creates the node [/a]
    and then stops (see [dir_a_exists]). *)
Definition hab : BlockHeader := mkBlockHeader "D1" "/a/b" 500 0 2.
Definition with_dir_a : State Packet := snd (MergeNode hab booted).

Definition get_nope : Packet :=
  mkPacket "C" "NN" GETHEADERS "" zeroBlock [mkBlockHeader "" "/nope" 0 0 0].
Definition retrieve (hs : list BlockHeader) : Packet :=
  mkPacket "C" "NN" RETRIEVEBLOCK "" zeroBlock hs.
Definition distribute : Packet :=
  mkPacket "C" "NN" DISTRIBUTE "" (mkBlock hf []) [].
Definition stranger_hb : Packet := mkPacket "D9" "NN" HB "" zeroBlock [].

End Run1.

Module Run2.
Import V2.

Definition D1_hb : Packet := mkPacket "D1" "NN" HB zeroBlock [].
Definition booted : State Packet := snd (CheckConnection 1 D1_hb Init).
Definition get_nope : Packet :=
  mkPacket "C" "NN" GETHEADERS zeroBlock [mkBlockHeader "" "/nope" 0 0 0].

End Run2.

(** * Notions for the properties of all states *)

(** The [BLOCK] packet [DistributeBlock] builds for the datanode record
    [dn] (lines 264-272): sent to [dn.ID], the header of the block patched
    with that id. *)
Definition block_for (dn : datanode) (b : Block) : V1.Packet :=
  V1.mkPacket "NN" (ID dn) BLOCK ""
    (mkBlock (mkBlockHeader (ID dn) (Filename (Header b)) (Size (Header b))
                (BlockNum (Header b)) (NumBlocks (Header b)))
             (Bytes b)) [].

(** [h] is the first header stored for block [i] in [blockMap]. *)
Definition heads_block (blockMap : gmap Z (list BlockHeader)) (i : nat) (h : BlockHeader) : Prop :=
  exists rest, blockMap !! Z.of_nat i = Some (h :: rest).

(** Two states that differ at most in what was printed. *)
Definition same_but_stdout {P} (s s' : State P) : Prop :=
  stores s' = stores s /\ sendChannel s' = sendChannel s
  /\ headerChannel s' = headerChannel s.

(** Whether the byte [c] occurs in [s]. *)
Fixpoint has_byte (c : ascii) (s : string) : bool :=
  match s with
  | EmptyString => false
  | String x rest => Ascii.eqb x c || has_byte c rest
  end.

(** Unfold one layer of the node and map updates of [MergeNode] and
    simplify, leaving lookups and inserts for the map lemmas. *)
Ltac merge_step :=
  unfold alloc, deref, store_slot, add_size, set_parent, append_child;
  unfold bind, ret, gets, modify, panic, println, set_nodes, set_filemap, set_datanodemap;
  unfold ptr in *;
  cbn -[find_child lookup insert].

(** The shape every tree built by [Init] and [MergeNode] has: the root is
    allocated, every other node starts with a nil child (line 212), and
    the children of the root are allocated nodes other than the root. *)
Definition tree_ok {P} (s : State P) : Prop :=
  root s < length (nodes s)
  /\ (forall v nd, nodes s !! v = Some nd -> v <> root s ->
        exists rest, children nd = None :: rest)
  /\ (forall rt, nodes s !! root s = Some rt ->
        forall c, c ∈ children rt ->
          exists v, c = Some v /\ v <> root s /\ v < length (nodes s)).

(** The placement index is keyed by what it stores: a header kept in
    slot [i] of path [p] names [p] and [i], and no slot holds a header
    twice. *)
Definition index_ok (fm : gmap string (gmap Z (list BlockHeader))) : Prop :=
  forall p blks i arr, fm !! p = Some blks -> blks !! i = Some arr ->
    NoDup arr /\ forall x, x ∈ arr -> Filename x = p /\ BlockNum x = i.

(** What one iteration of the walk of the first copy can do to the
    state, for the segment [partial] under the node [q]. *)
Definition created {P} (h : BlockHeader) (partial : string) (q : ptr) (s s' : State P) : Prop :=
  exists nd dn,
    nodes s !! q = Some nd
    /\ fst (find_child (children nd) partial s) = Returned None
    /\ datanodemap s !! DatanodeID h = Some dn
    /\ s' = mkState (root s)
              (<[q := mkFilenode (path nd) (parent nd)
                        (children nd ++ [Some (length (nodes s))])]>
                 (nodes s ++ [mkFilenode partial (Some q) [None]]))
              (if String.eqb partial (Filename h)
               then <[Filename h := {[BlockNum h := [h]]}]> (filemap s) else filemap s)
              (if String.eqb partial (Filename h)
               then <[DatanodeID h :=
                        mkDatanode (ID dn) (listed dn) (wrap64 (size dn + Size h))]>
                      (datanodemap s)
               else datanodemap s)
              (clientMap s) (sendMap s) (sendChannel s) (headerChannel s) (stdout s).

Definition placed {P} (h : BlockHeader) (s s' : State P) : Prop :=
  exists blks dn,
    filemap s !! Filename h = Some blks
    /\ datanodemap s !! DatanodeID h = Some dn
    /\ s' = mkState (root s) (nodes s)
              (match blks !! BlockNum h with
               | None => <[Filename h := <[BlockNum h := [h]]> blks]> (filemap s)
               | Some arr =>
                   if ContainsHeader arr h then filemap s
                   else <[Filename h := <[BlockNum h := arr ++ [h]]> blks]> (filemap s)
               end)
              (<[DatanodeID h := mkDatanode (ID dn) (listed dn) (wrap64 (size dn + Size h))]>
                 (datanodemap s))
              (clientMap s) (sendMap s) (sendChannel s) (headerChannel s) (stdout s).

(** [m] relates every state it starts from to the state it leaves, by
    [R]; the state a panic leaves counts as well. *)
Definition keeps {S A} (R : S -> S -> Prop) (m : Go S A) : Prop :=
  forall s, R s (snd (m s)).

(** What the dispatcher of the first copy may do to the state: nothing to
    the tree, the index and the send map; to a datanode record nothing
    but setting [listed]; to the pending-request table nothing but adding
    or overwriting entries; to the channels nothing but appending, and to
    [sendChannel] only packets from ["NN"]. *)
Definition dispatch_frame (s s' : State V1.Packet) : Prop :=
  root s' = root s /\ nodes s' = nodes s /\ filemap s' = filemap s
  /\ sendMap s' = sendMap s
  /\ (forall k dn, datanodemap s !! k = Some dn ->
        exists dn', datanodemap s' !! k = Some dn' /\ ID dn' = ID dn
          /\ size dn' = size dn /\ (listed dn = true -> listed dn' = true))
  /\ (forall k, datanodemap s !! k = None -> datanodemap s' !! k = None)
  /\ (forall h c, clientMap s !! h = Some c -> is_Some (clientMap s' !! h))
  /\ (exists l, sendChannel s' = sendChannel s ++ l
        /\ Forall (fun r => V1.SRC r = "NN") l)
  /\ (exists l, headerChannel s' = headerChannel s ++ l).

(** Whatever [m] returns satisfies [Q]. *)
Definition yields {S A} (Q : A -> Prop) (m : Go S A) : Prop :=
  forall s a, fst (m s) = Returned a -> Q a.

(** Every datanode record is stored under its own id. *)
Definition records_ok (dm : gmap string datanode) : Prop :=
  forall k dn, dm !! k = Some dn -> ID dn = k.

(** The states of the first copy: what [Init] leaves, and what any call
    of the header merger, the dispatcher and the connection check leaves,
    whether it returns or panics. *)
Inductive reachable : State V1.Packet -> Prop :=
| reach_Init : reachable Init
| reach_MergeNode (h : BlockHeader) (s : State V1.Packet) :
    reachable s -> reachable (snd (V1.MergeNode h s))
| reach_HandlePacket (rnd : nat) (p : V1.Packet) (s : State V1.Packet) :
    reachable s -> reachable (snd (V1.HandlePacket rnd p s))
| reach_CheckConnection (rnd conn : nat) (p : V1.Packet) (s : State V1.Packet) :
    reachable s -> reachable (snd (V1.CheckConnection rnd conn p s)).

(** The first record of [l] has the least [size] of all. *)
Definition least_first (l : list datanode) : Prop :=
  match l with
  | [] => True
  | x :: _ => forall y, y ∈ l -> (size x <= size y)%Z
  end.

(** * The sender (lines 278-293, and 793-808 in the second copy)

    [SendPackets] is one goroutine that ranges over [sendChannel].  Its
    view of the world is whether [sendMapLock] is held, what the encoders
    have written, and what it printed.  The other user of the lock,
    [CheckConnection], locks and unlocks in pairs, so between two packets
    the lock is as the sender left it.  [sendMap] is taken as it is while
    the packets [ps] are sent; [fails conn p] says whether
    [encoder.Encode(p)] returns an error on the connection [conn], in
    which case nothing counts as written. *)
Module Sender.
Import V1.

Record Wire : Type := mkWire {
  locked : bool;
  written : list (nat * Packet);
  printed : list string
}.

(** Where the goroutine is when the packets run out: at the [range],
    waiting for the next packet, or inside [sendMapLock.Lock()], on a
    mutex that is held. *)
Inductive progress : Type := Waiting | Blocked.

Fixpoint SendPackets (sendMap : gmap string nat) (fails : nat -> Packet -> bool)
    (ps : list Packet) (w : Wire) : progress * Wire :=
  match ps with
  | [] => (Waiting, w)
  | p :: rest =>
      if locked w then (Blocked, w)
      else
        let w := mkWire true (written w) (printed w) in
        match sendMap !! DST p with
        | None =>
            SendPackets sendMap fails rest
              (mkWire (locked w) (written w) (printed w ++ ["Could not find encoder for "]))
        | Some conn =>
            let w :=
              if fails conn p
              then mkWire (locked w) (written w) (printed w ++ ["Error sending"])
              else mkWire (locked w) (written w ++ [(conn, p)]) (printed w) in
            SendPackets sendMap fails rest (mkWire false (written w) (printed w))
        end
  end.

(** The packet [p] as it reaches its connection, if it does. *)
Definition delivery (sendMap : gmap string nat) (fails : nat -> Packet -> bool) (p : Packet)
    : option (nat * Packet) :=
  match sendMap !! DST p with
  | Some conn => if fails conn p then None else Some (conn, p)
  | None => None
  end.

End Sender.

(** * More states and packets used in the statements *)

Module Cases.
Import V1 Run1.

(** The record of [D1] in [booted], and with the size of [hf] counted. *)
Definition D1_new : datanode := mkDatanode "D1" false 0.
Definition D1_once : datanode := mkDatanode "D1" false 500.

(** The root as [Init] makes it, and with one child. *)
Definition bare_root : filenode := mkFilenode "/" None [].
Definition root_with_child : filenode := mkFilenode "/" None [Some 1].

(** Headers: of a datanode without a record, with a name that has no
    slash, a second placement of block 0 of [/f], and a file named like
    the directory [/a]. *)
Definition h_unknown : BlockHeader := mkBlockHeader "D7" "/f" 500 0 1.
Definition h_rel : BlockHeader := mkBlockHeader "D1" "f" 500 0 1.
Definition hf_again : BlockHeader := mkBlockHeader "D1" "/f" 700 0 1.
Definition h_a : BlockHeader := mkBlockHeader "D1" "/a" 500 0 1.

(** The index entry of [/f] in [stored]. *)
Definition f_blocks : gmap Z (list BlockHeader) := {[0%Z := [hf]]}.

(** Packets of [D1], of the client, and one without a source. *)
Definition D1_list : Packet := mkPacket "D1" "NN" LIST "" zeroBlock [hf].
Definition D1_block : Packet := mkPacket "D1" "NN" BLOCK "" (mkBlock hf []) [].
Definition f_request : BlockHeader := mkBlockHeader "" "/f" 0 0 0.
Definition get_f : Packet := mkPacket "C" "NN" GETHEADERS "" zeroBlock [f_request].
Definition get_two : Packet :=
  mkPacket "C" "NN" GETHEADERS "" zeroBlock [f_request; f_request].
Definition nameless : Packet := mkPacket "" "" HB "" zeroBlock [].

(** The sender's view: [D1] is on connection 1, nothing fails, the lock
    is free and nothing was written. *)
Definition one_peer : gmap string nat := {["D1" := 1%nat]}.
Definition never_fails (conn : nat) (p : Packet) : bool := false.
Definition idle : Sender.Wire := Sender.mkWire false [] [].
Definition to_D1 : Packet := mkPacket "NN" "D1" ACK "" zeroBlock [].
Definition to_D9 : Packet := mkPacket "NN" "D9" ACK "" zeroBlock [].

End Cases.

(** * Proof steps *)

(** Closed goals are settled by evaluation. *)
Ltac evaluate :=
  repeat match goal with |- _ /\ _ => split end; vm_compute; reflexivity.

(** Unfold the dispatcher of either copy down to the state it returns. *)
Ltac run_handler :=
  unfold V1.HandlePacket, V1.client_switch, V1.datanode_switch, V1.DistributeBlock,
    recovering, bind, ret, gets, modify, println, send, enqueue, index, panic,
    Run1.template, V1.id;
  cbn.

Ltac run_handler2 :=
  unfold V2.HandlePacket, V2.client_switch, V2.datanode_switch, V2.DistributeBlock,
    recovering, bind, ret, gets, modify, println, send, enqueue, index, panic, V2.id;
  cbn.

(** * Properties *)

(** ** [MergeNode] *)

Section MergeFacts.
Import V1 Run1.

(** The state the scenarios start from: [D1] has a record of size 0,
    nothing is stored, the tree is the root alone. *)
Lemma booted_state :
  datanodemap booted = {["D1" := mkDatanode "D1" false 0]}
  /\ filemap booted = ∅
  /\ nodes booted = [mkFilenode "/" None []].
Proof. evaluate. Qed.

(** C1 (the code departs from the claim).  Merging [hf] into [booted]
    once, twice or three times leaves exactly [[hf]] in the slot of [/f],
    block 0, but the size recorded for [D1] is 500, then 1000, then 1500:
    the increment of line 203 is outside the test of [ContainsHeader], so
    every duplicate merge is counted again. *)
Theorem C1_duplicate_merge_counted_again :
  let once := HandleBlockHeaders [hf] booted in
  let twice := HandleBlockHeaders [hf; hf] booted in
  let thrice := HandleBlockHeaders [hf; hf; hf] booted in
  (fst once = Returned tt /\ fst twice = Returned tt /\ fst thrice = Returned tt)
  /\ (load_slot "/f" 0 (snd once) = Some [hf]
      /\ load_slot "/f" 0 (snd twice) = Some [hf]
      /\ load_slot "/f" 0 (snd thrice) = Some [hf])
  /\ (size <$> datanodemap (snd once) !! "D1" = Some 500%Z
      /\ size <$> datanodemap (snd twice) !! "D1" = Some 1000%Z
      /\ size <$> datanodemap (snd thrice) !! "D1" = Some 1500%Z).
Proof. cbv zeta. evaluate. Qed.

(** In the second copy the increment is commented out where the file is
    created (line 729), and a later merge of the same path compares
    ["/f/"] with ["/f"] (line 697) and does nothing: the size of [D1]
    stays 0 however often [hf] is merged. *)
Lemma V2_merge_never_counted :
  let once := V2.HandleBlockHeaders [hf] Run2.booted in
  let twice := V2.HandleBlockHeaders [hf; hf] Run2.booted in
  load_slot "/f" 0 (snd once) = Some [hf]
  /\ load_slot "/f" 0 (snd twice) = Some [hf]
  /\ size <$> datanodemap (snd once) !! "D1" = Some 0%Z
  /\ size <$> datanodemap (snd twice) !! "D1" = Some 0%Z.
Proof. cbv zeta. evaluate. Qed.

(** The guard of line 158 lets a header through exactly when its block
    number is at most its number of blocks. *)
Lemma invalid_header_spec (h : BlockHeader) :
  DatanodeID h <> "" -> Filename h <> "" -> (0 <= Size h)%Z ->
  invalid_header h = false <-> (0 <= BlockNum h <= NumBlocks h)%Z.
Proof.
  intros Hd Hf Hs. unfold invalid_header.
  apply String.eqb_neq in Hd. apply String.eqb_neq in Hf. rewrite Hd, Hf.
  cbn [orb].
  destruct (Z.ltb_spec (Size h) 0); [lia|].
  destruct (Z.ltb_spec (BlockNum h) 0); destruct (Z.ltb_spec (NumBlocks h) (BlockNum h));
    cbn [orb]; split; intros; try discriminate; try lia; reflexivity.
Qed.

(** C2 (the code departs from the claim).  A header of [/f] with block
    number 0 of 1 is accepted, and so is [h_eq], whose block number 1
    equals its number of blocks 1: [MergeNode] returns nil and stores it
    in slot 1.  Only a block number above the number of blocks ([h_over],
    2 of 1) is rejected: the guard of line 158 is
    [h.NumBlocks < h.BlockNum]. *)
Theorem C2_block_number_equal_to_count_accepted :
  (fst (MergeNode hf booted) = Returned None
   /\ load_slot "/f" 0 (snd (MergeNode hf booted)) = Some [hf])
  /\ (fst (MergeNode h_eq booted) = Returned None
      /\ load_slot "/f" 1 (snd (MergeNode h_eq booted)) = Some [h_eq])
  /\ MergeNode h_over booted = (Returned (Some "Invalid header input"), booted).
Proof. evaluate. Qed.

(** Merging [hab] into [booted] creates the directory node [/a] under the
    root, with one nil child (line 212), and then panics on that child
    (line 180): the tree holds [/a], the index holds nothing. *)
Lemma dir_a_exists :
  fst (MergeNode hab booted) = Panicked nil_deref
  /\ nodes with_dir_a = [mkFilenode "/" None [Some 1]; mkFilenode "/a" (Some 0) [None]]
  /\ filemap with_dir_a = ∅.
Proof. evaluate. Qed.

(** C6 (the code departs from the claim).  With the directory node [/a]
    in the tree, merging the header [hab] of [/a/b] finds [/a], descends
    into it and dereferences its first child, the nil pointer every node
    made by [MergeNode] starts with (line 212): [MergeNode] panics, the
    comparison of ["/a/b"] with the path is never reached and nothing is
    stored. *)
Theorem C6_file_under_existing_directory_not_stored :
  fst (MergeNode hab with_dir_a) = Panicked nil_deref
  /\ load_slot "/a/b" 0 (snd (MergeNode hab with_dir_a)) = None
  /\ filemap (snd (MergeNode hab with_dir_a)) = ∅
  /\ fst (HandleBlockHeaders [hab] with_dir_a) = Panicked nil_deref.
Proof. evaluate. Qed.

(** The second copy recovers from the same panic, and stores nothing
    either. *)
Lemma V2_file_under_directory_not_stored :
  let run := V2.HandleBlockHeaders [hab; hab] Run2.booted in
  fst run = Returned tt
  /\ filemap (snd run) = ∅
  /\ nodes (snd run) = [mkFilenode "/" None [Some 1]; mkFilenode "/a" (Some 0) [None]].
Proof. cbv zeta. evaluate. Qed.

End MergeFacts.
(** ** [HandlePacket] *)

Section DispatchFacts.
Import V1 Run1.

(** C7, as stated, fails on the second copy: the client's request for
    [/nope], one header whose file name is not a key of [filemap], is not
    answered at all. *)
Lemma C7_counterexample :
  V2.SRC Run2.get_nope = "C" /\ V2.CMD Run2.get_nope = GETHEADERS
  /\ V2.Headers Run2.get_nope = [mkBlockHeader "" "/nope" 0 0 0]
  /\ filemap Run2.booted !! "/nope" = None
  /\ ~ (exists r, sendChannel (snd (V2.HandlePacket Run2.get_nope Run2.booted))
                  = sendChannel Run2.booted ++ [r]).
Proof.
  repeat match goal with |- _ /\ _ => split end; try (vm_compute; reflexivity).
  intros [r Hr]. apply (f_equal (@length V2.Packet)) in Hr.
  rewrite length_app in Hr. vm_compute in Hr. discriminate.
Qed.

(** C7, amended.  A [GETHEADERS] request of the client with one header
    whose file name is not a key of [filemap] leaves the tree, the index,
    the datanode records, the pending-request table and the header
    channel as they were, and the call returns.  In the first copy, which
    has the [ERROR] command and the [Err] field, it is answered with one
    packet, from ["NN"] to ["C"], with command [ERROR] and [Err] equal to
    ["File not found "] followed by the requested path.  In the second
    copy, which has neither, no packet is sent. *)
Theorem C7_getheaders_unknown_file_error :
  (forall (rnd : nat) (p : Packet) (s : State Packet) (h0 : BlockHeader),
     SRC p = "C" -> CMD p = GETHEADERS -> Headers p = [h0] ->
     filemap s !! Filename h0 = None ->
     fst (HandlePacket rnd p s) = Returned tt
     /\ sendChannel (snd (HandlePacket rnd p s))
        = sendChannel s
          ++ [mkPacket "NN" "C" ERROR ("File not found " +:+ Filename h0) zeroBlock []]
     /\ stores (snd (HandlePacket rnd p s)) = stores s
     /\ headerChannel (snd (HandlePacket rnd p s)) = headerChannel s)
  /\ (forall (p : V2.Packet) (s : State V2.Packet) (h0 : BlockHeader),
     V2.SRC p = "C" -> V2.CMD p = GETHEADERS -> V2.Headers p = [h0] ->
     filemap s !! Filename h0 = None ->
     fst (V2.HandlePacket p s) = Returned tt
     /\ sendChannel (snd (V2.HandlePacket p s)) = sendChannel s
     /\ stores (snd (V2.HandlePacket p s)) = stores s
     /\ headerChannel (snd (V2.HandlePacket p s)) = headerChannel s).
Proof.
  split.
  - intros rnd p s h0 Hsrc Hcmd Hhs Hmiss. destruct p as [src dst cmd err data hs].
    cbn in Hsrc, Hcmd, Hhs. subst src cmd hs.
    run_handler. rewrite Hmiss. cbn. auto.
  - intros p s h0 Hsrc Hcmd Hhs Hmiss. destruct p as [src dst cmd data hs].
    cbn in Hsrc, Hcmd, Hhs. subst src cmd hs.
    run_handler2. rewrite Hmiss. cbn. auto.
Qed.

(** C7 at the request for [/nope], in [booted] of either copy. *)
Lemma C7_witness :
  sendChannel (snd (HandlePacket 0 get_nope booted))
  = sendChannel booted ++ [mkPacket "NN" "C" ERROR "File not found /nope" zeroBlock []]
  /\ sendChannel (snd (V2.HandlePacket Run2.get_nope Run2.booted)) = sendChannel Run2.booted.
Proof.
  destruct C7_getheaders_unknown_file_error as [H1 H2]. split.
  - destruct (H1 0%nat get_nope booted (mkBlockHeader "" "/nope" 0 0 0)) as (_ & H & _);
      [vm_compute; reflexivity .. | exact H].
  - destruct (H2 Run2.get_nope Run2.booted (mkBlockHeader "" "/nope" 0 0 0)) as (_ & H & _);
      [vm_compute; reflexivity .. | exact H].
Defined.

(** The second copy has no [ERROR] command and no [Err] field; on the
    same request it prints a line, goes on with the nil inner map and
    panics at [blockMap[0][0]] (line 885): nothing is sent. *)
Lemma V2_getheaders_unknown_file_dropped :
  let run := V2.HandlePacket Run2.get_nope Run2.booted in
  fst run = Returned tt /\ sendChannel (snd run) = sendChannel Run2.booted.
Proof. cbv zeta. evaluate. Qed.

(** C8.  A [RETRIEVEBLOCK] of the client with exactly one header [h]
    records [clientMap[h] = p.SRC] and sends exactly one packet: from
    ["NN"] to [h.DatanodeID], command [RETRIEVEBLOCK], the headers of the
    request.  With any other number of headers [clientMap] is unchanged
    and the one packet sent is an [ERROR] back to the client, not a
    request to a datanode. *)
Theorem C8_retrieveblock_forwarded (rnd : nat) (p : Packet) (s : State Packet) :
  SRC p = "C" -> CMD p = RETRIEVEBLOCK ->
  fst (HandlePacket rnd p s) = Returned tt
  /\ match Headers p with
     | [h] =>
         clientMap (snd (HandlePacket rnd p s)) = <[h := SRC p]> (clientMap s)
         /\ sendChannel (snd (HandlePacket rnd p s))
            = sendChannel s
              ++ [mkPacket "NN" (DatanodeID h) RETRIEVEBLOCK "" zeroBlock (Headers p)]
     | _ =>
         clientMap (snd (HandlePacket rnd p s)) = clientMap s
         /\ sendChannel (snd (HandlePacket rnd p s))
            = sendChannel s
              ++ [mkPacket "NN" "C" ERROR "Invalid Header received" zeroBlock []]
     end.
Proof.
  intros Hsrc Hcmd. destruct p as [src dst cmd err data hs].
  cbn in Hsrc, Hcmd. subst src cmd.
  destruct hs as [|h [|h' hs]]; run_handler; auto.
Qed.

(** C8 at a request with the one header [hf], and at one with none. *)
Lemma C8_witness :
  clientMap (snd (HandlePacket 0 (retrieve [hf]) booted)) !! hf = Some "C"
  /\ sendChannel (snd (HandlePacket 0 (retrieve [hf]) booted))
     = sendChannel booted ++ [mkPacket "NN" "D1" RETRIEVEBLOCK "" zeroBlock [hf]]
  /\ clientMap (snd (HandlePacket 0 (retrieve []) booted)) = clientMap booted.
Proof.
  destruct (C8_retrieveblock_forwarded 0 (retrieve [hf]) booted eq_refl eq_refl)
    as [_ [Hmap Hsent]].
  destruct (C8_retrieveblock_forwarded 0 (retrieve []) booted eq_refl eq_refl)
    as [_ [Hsame _]].
  split; [rewrite Hmap; apply lookup_insert_eq | split; [exact Hsent | exact Hsame]].
Defined.

(** C9.  A [DISTRIBUTE] of the client while [datanodemap] is empty is
    answered with one [ACK] to the client; no other packet (so no
    [BLOCK]) is sent, and the tree, the index, the datanode records, the
    pending-request table and the header channel are unchanged. *)
Theorem C9_distribute_without_datanodes (rnd : nat) (p : Packet) (s : State Packet) :
  SRC p = "C" -> CMD p = DISTRIBUTE -> datanodemap s = ∅ ->
  fst (HandlePacket rnd p s) = Returned tt
  /\ sendChannel (snd (HandlePacket rnd p s))
     = sendChannel s ++ [mkPacket "NN" "C" ACK "" zeroBlock []]
  /\ stores (snd (HandlePacket rnd p s)) = stores s
  /\ headerChannel (snd (HandlePacket rnd p s)) = headerChannel s.
Proof.
  intros Hsrc Hcmd Hdm. destruct p as [src dst cmd err data hs].
  cbn in Hsrc, Hcmd. subst src cmd.
  run_handler. rewrite Hdm, map_size_empty. cbn.
  unfold stores. cbn. rewrite Hdm. auto.
Qed.

(** C9 at a [DISTRIBUTE] received right after [Init]. *)
Lemma C9_witness :
  sendChannel (snd (HandlePacket 0 distribute Init))
  = [mkPacket "NN" "C" ACK "" zeroBlock []].
Proof.
  apply (C9_distribute_without_datanodes 0 distribute Init); reflexivity.
Defined.

(** C10.  A packet whose source is not empty, not ["C"] and not a key
    of [datanodemap] makes [HandlePacket] dereference a nil record; the
    panic is recovered, the call returns normally, nothing is sent or
    enqueued and no store changes: only the two lines of the recovery are
    printed. *)
Theorem C10_unknown_source_dropped (rnd : nat) (p : Packet) (s : State Packet) :
  SRC p <> "" -> SRC p <> "C" -> datanodemap s !! SRC p = None ->
  fst (HandlePacket rnd p s) = Returned tt
  /\ stores (snd (HandlePacket rnd p s)) = stores s
  /\ sendChannel (snd (HandlePacket rnd p s)) = sendChannel s
  /\ headerChannel (snd (HandlePacket rnd p s)) = headerChannel s
  /\ stdout (snd (HandlePacket rnd p s))
     = stdout s ++ ["Recovered from panic "] ++ ["Unable to handle packet "].
Proof.
  intros He Hc Hdm. destruct p as [src dst cmd err data hs]. cbn in He, Hc, Hdm.
  apply String.eqb_neq in He, Hc.
  unfold HandlePacket, datanode_switch, recovering, bind, gets. cbn.
  rewrite He, Hc, Hdm. cbn. rewrite <- app_assoc. auto.
Qed.

(** C10 at a heartbeat of [D9], which has no record in [booted]. *)
Lemma C10_witness :
  sendChannel (snd (HandlePacket 0 stranger_hb booted)) = sendChannel booted
  /\ stores (snd (HandlePacket 0 stranger_hb booted)) = stores booted.
Proof.
  destruct (C10_unknown_source_dropped 0 stranger_hb booted) as (_ & Hst & Hsent & _);
    [discriminate | discriminate | vm_compute; reflexivity | ].
  split; [exact Hsent | exact Hst].
Defined.


(** The state of C3: [/g] has its block 0 of 2 in the index and no entry
    for block 1. *)
Lemma half_listed_state :
  filemap half_listed !! "/g" = Some {[0%Z := [g0]]}
  /\ load_slot "/g" 0 half_listed = Some [g0]
  /\ load_slot "/g" 1 half_listed = None
  /\ NumBlocks g0 = 2%Z.
Proof. evaluate. Qed.

(** C3 (the code departs from the claim).  [/g] is a key of [filemap],
    its block 0 says the file has 2 blocks and block 1 has no entry.  The
    client's [GETHEADERS] for [/g] gets no reply at all: the loop of
    lines 387-390 indexes the missing entry, the panic is recovered at
    line 316 and [HandlePacket] returns without sending.  Only a missing
    block 0 is checked (line 379). *)
Theorem C3_missing_block_entry_dropped :
  fst (HandlePacket 0 get_g half_listed) = Returned tt
  /\ sendChannel (snd (HandlePacket 0 get_g half_listed)) = sendChannel half_listed
  /\ stdout (snd (HandlePacket 0 get_g half_listed))
     = stdout half_listed
       ++ ["Retrieving headers for client using "; ""; "";
           "Recovered from panic "; "Unable to handle packet "].
Proof. evaluate. Qed.

(** When it is block 0 that has no entry, the reply is an [ERROR]. *)
Lemma getheaders_first_block_missing_error :
  let s := snd (MergeNode (mkBlockHeader "D1" "/g" 500 1 2) booted) in
  sendChannel (snd (HandlePacket 0 get_g s))
  = sendChannel s
    ++ [mkPacket "NN" "C" ERROR "Could not locate first block in file" zeroBlock []].
Proof. cbv zeta. evaluate. Qed.

(** C4, as stated, fails: the client's packet with command [LIST], which
    the client half of the switch has no case for, is answered with an
    [ACK]. *)
Lemma C4_counterexample :
  client_case (CMD client_list) = false
  /\ sendChannel (snd (HandlePacket 0 client_list Init))
     = [mkPacket "NN" "C" ACK "" zeroBlock []]
  /\ sendChannel (snd (HandlePacket 0 client_list Init)) <> sendChannel Init.
Proof.
  split; [reflexivity|]. split; [vm_compute; reflexivity | vm_compute; discriminate].
Qed.

(** C4, amended.  A packet of the client, or of a datanode that has a
    record, whose command has no case in the switch for its peer class
    falls through the switch: [HandlePacket] returns normally, changes no
    store, enqueues no header and sends exactly one packet, the reply
    template [{NN, p.SRC, ACK, "", empty block, no headers}]. *)
Theorem C4_unhandled_command_acked (rnd : nat) (p : Packet) (s : State Packet) :
  unhandled (datanodemap s) (SRC p) (CMD p) ->
  fst (HandlePacket rnd p s) = Returned tt
  /\ sendChannel (snd (HandlePacket rnd p s)) = sendChannel s ++ [template p]
  /\ stores (snd (HandlePacket rnd p s)) = stores s
  /\ headerChannel (snd (HandlePacket rnd p s)) = headerChannel s.
Proof.
  intros [Hne H]. destruct p as [src dst cmd err data hs]. cbn [SRC CMD] in *.
  apply String.eqb_neq in Hne.
  unfold HandlePacket, recovering, bind. cbn [SRC CMD]. rewrite Hne.
  destruct (String.eqb src "C") eqn:Hc.
  - unfold client_case in H.
    repeat (apply orb_false_iff in H; destruct H as [H ?]).
    unfold client_switch. cbn [CMD]. rewrite H, H0, H1, H2.
    apply String.eqb_eq in Hc. subst src. cbn. auto.
  - destruct H as [H [dn Hdn]]. unfold datanode_case in H.
    repeat (apply orb_false_iff in H; destruct H as [H ?]).
    unfold datanode_switch, bind, gets. cbn [SRC CMD]. rewrite Hdn, H, H0, H1, H2.
    cbn. auto.
Qed.

(** C4, amended, at the client's [LIST] and at a [GETHEADERS] of [D1]. *)
Lemma C4_witness :
  sendChannel (snd (HandlePacket 0 client_list Init)) = [template client_list]
  /\ sendChannel (snd (HandlePacket 0 (mkPacket "D1" "NN" GETHEADERS "" zeroBlock []) booted))
     = sendChannel booted ++ [mkPacket "NN" "D1" ACK "" zeroBlock []].
Proof.
  split.
  - apply (C4_unhandled_command_acked 0 client_list Init).
    split; [discriminate | reflexivity].
  - apply (C4_unhandled_command_acked 0 (mkPacket "D1" "NN" GETHEADERS "" zeroBlock []) booted).
    split; [discriminate | split; [reflexivity | eexists; vm_compute; reflexivity]].
Defined.

(** C5 (the code departs from the claim).  [D1] has a record.  Its
    [BLOCKACK] with no header enqueues nothing, and it gets no [ACK]
    either: line 423 prints [p.Headers[0]] outside the length test of
    line 419, the index panics, and the recovery of line 316 returns
    before the reply is sent. *)
Theorem C5_empty_blockack_not_acked :
  is_Some (datanodemap booted !! "D1")
  /\ fst (HandlePacket 0 empty_blockack booted) = Returned tt
  /\ sendChannel (snd (HandlePacket 0 empty_blockack booted)) = sendChannel booted
  /\ headerChannel (snd (HandlePacket 0 empty_blockack booted)) = headerChannel booted
  /\ stdout (snd (HandlePacket 0 empty_blockack booted))
     = stdout booted ++ ["Recovered from panic "; "Unable to handle packet "].
Proof. split; [eexists; vm_compute; reflexivity | evaluate]. Qed.

(** With at least one header the [BLOCKACK] of a datanode that has a
    record is answered with an [ACK], and the first header is enqueued
    exactly when it is the only one. *)
Lemma blockack_with_headers (rnd : nat) (p : Packet) (s : State Packet)
    (dn : datanode) (h : BlockHeader) (hs : list BlockHeader) :
  SRC p <> "" -> SRC p <> "C" -> datanodemap s !! SRC p = Some dn ->
  CMD p = BLOCKACK -> Headers p = h :: hs ->
  fst (HandlePacket rnd p s) = Returned tt
  /\ sendChannel (snd (HandlePacket rnd p s)) = sendChannel s ++ [template p]
  /\ headerChannel (snd (HandlePacket rnd p s))
     = headerChannel s ++ match hs with [] => [h] | _ => [] end.
Proof.
  intros He Hc Hdn Hcmd Hhs. destruct p as [src dst cmd err data hs'].
  cbn in He, Hc, Hdn, Hcmd, Hhs. subst cmd hs'.
  apply String.eqb_neq in He, Hc.
  unfold HandlePacket, datanode_switch, recovering, bind, gets. cbn.
  rewrite He, Hc, Hdn. destruct hs; cbn; rewrite ?app_nil_r; auto.
Qed.

(** The same for every state: an empty [BLOCKACK] of a datanode that has
    a record is dropped without a reply. *)
Lemma empty_blockack_dropped (rnd : nat) (p : Packet) (s : State Packet) (dn : datanode) :
  SRC p <> "" -> SRC p <> "C" -> datanodemap s !! SRC p = Some dn ->
  CMD p = BLOCKACK -> Headers p = [] ->
  fst (HandlePacket rnd p s) = Returned tt
  /\ sendChannel (snd (HandlePacket rnd p s)) = sendChannel s
  /\ headerChannel (snd (HandlePacket rnd p s)) = headerChannel s
  /\ stores (snd (HandlePacket rnd p s)) = stores s.
Proof.
  intros He Hc Hdn Hcmd Hhs. destruct p as [src dst cmd err data hs].
  cbn in He, Hc, Hdn, Hcmd, Hhs. subst cmd hs.
  apply String.eqb_neq in He, Hc.
  unfold HandlePacket, datanode_switch, recovering, bind, gets. cbn.
  rewrite He, Hc, Hdn. cbn. auto.
Qed.

(** And for every state in which the requested file has a first block
    announcing two blocks or more and no entry for block 1: the
    [GETHEADERS] request is dropped without a reply. *)
Lemma getheaders_later_block_missing (rnd : nat) (p : Packet) (s : State Packet)
    (h0 first : BlockHeader) (rest : list BlockHeader) (blockMap : gmap Z (list BlockHeader)) :
  SRC p = "C" -> CMD p = GETHEADERS -> Headers p = [h0] ->
  filemap s !! Filename h0 = Some blockMap ->
  blockMap !! 0%Z = Some (first :: rest) -> blockMap !! 1%Z = None ->
  (2 <= NumBlocks first)%Z ->
  fst (HandlePacket rnd p s) = Returned tt
  /\ sendChannel (snd (HandlePacket rnd p s)) = sendChannel s
  /\ stores (snd (HandlePacket rnd p s)) = stores s.
Proof.
  intros Hsrc Hcmd Hhs Hfm Hb0 Hb1 Hn. destruct p as [src dst cmd err data hs].
  cbn in Hsrc, Hcmd, Hhs. subst src cmd hs.
  destruct (Z.to_nat (NumBlocks first)) as [|[|k]] eqn:Hk; try lia.
  run_handler. rewrite Hfm. cbn. rewrite Hb0. cbn.
  destruct (Z.ltb_spec (NumBlocks first) 0) as [|_]; [lia|].
  rewrite Hk. cbn. unfold index, bind, println, modify, ret, panic. cbn.
  change (Z.of_nat 0) with 0%Z. change (Z.of_nat 1) with 1%Z.
  rewrite Hb0, Hb1. cbn. auto.
Qed.

End DispatchFacts.

(** ** The second copy agrees on C8, C9 and C10 *)

Section DispatchFactsV2.
Import V2.

(** [RETRIEVEBLOCK] (lines 856-870): forwarded with one header, dropped
    without a reply otherwise. *)
Lemma V2_retrieveblock_forwarded (p : Packet) (s : State Packet) :
  SRC p = "C" -> CMD p = RETRIEVEBLOCK ->
  fst (HandlePacket p s) = Returned tt
  /\ match Headers p with
     | [h] =>
         clientMap (snd (HandlePacket p s)) = <[h := SRC p]> (clientMap s)
         /\ sendChannel (snd (HandlePacket p s))
            = sendChannel s ++ [mkPacket "NN" (DatanodeID h) RETRIEVEBLOCK zeroBlock (Headers p)]
     | _ =>
         clientMap (snd (HandlePacket p s)) = clientMap s
         /\ sendChannel (snd (HandlePacket p s)) = sendChannel s
     end.
Proof.
  intros Hsrc Hcmd. destruct p as [src dst cmd data hs].
  cbn in Hsrc, Hcmd. subst src cmd.
  destruct hs as [|h [|h' hs]]; run_handler2; auto.
Qed.

(** [DISTRIBUTE] with no datanode (lines 762-765 and 851-855). *)
Lemma V2_distribute_without_datanodes (p : Packet) (s : State Packet) :
  SRC p = "C" -> CMD p = DISTRIBUTE -> datanodemap s = ∅ ->
  fst (HandlePacket p s) = Returned tt
  /\ sendChannel (snd (HandlePacket p s)) = sendChannel s ++ [mkPacket "NN" "C" ACK zeroBlock []]
  /\ stores (snd (HandlePacket p s)) = stores s
  /\ headerChannel (snd (HandlePacket p s)) = headerChannel s.
Proof.
  intros Hsrc Hcmd Hdm. destruct p as [src dst cmd data hs].
  cbn in Hsrc, Hcmd. subst src cmd.
  run_handler2. rewrite Hdm, map_size_empty. cbn.
  unfold stores. cbn. rewrite Hdm. auto.
Qed.

(** A source without a record (lines 896-897). *)
Lemma V2_unknown_source_dropped (p : Packet) (s : State Packet) :
  SRC p <> "" -> SRC p <> "C" -> datanodemap s !! SRC p = None ->
  fst (HandlePacket p s) = Returned tt
  /\ stores (snd (HandlePacket p s)) = stores s
  /\ sendChannel (snd (HandlePacket p s)) = sendChannel s
  /\ headerChannel (snd (HandlePacket p s)) = headerChannel s.
Proof.
  intros He Hc Hdm. destruct p as [src dst cmd data hs]. cbn in He, Hc, Hdm.
  apply String.eqb_neq in He, Hc.
  unfold HandlePacket, datanode_switch, recovering, bind, gets. cbn.
  rewrite He, Hc, Hdm. cbn. auto.
Qed.

End DispatchFactsV2.

(** * Further properties

    What follows holds for every state and packet, not for one run. *)

(** ** [DistributeBlock] and the [DISTRIBUTE] request *)

Section DistributeFacts.
Import V1 Run1.

Lemma chosen_node_exists (rnd : nat) (dm : gmap string datanode) :
  dm <> ∅ ->
  exists k dn, dm !! k = Some dn
    /\ ((fun kv : string * datanode => ID (snd kv)) <$> map_to_list dm)
       !! (rnd mod length ((fun kv : string * datanode => ID (snd kv)) <$> map_to_list dm))%nat
       = Some (ID dn).
Proof.
  intros Hne. apply map_size_non_empty_iff in Hne.
  set (ids := (fun kv : string * datanode => ID (snd kv)) <$> map_to_list dm).
  assert (Hlen : length ids = base.size dm)
    by (unfold ids; rewrite length_fmap; apply length_map_to_list).
  destruct (lookup_lt_is_Some_2 ids (rnd mod length ids)%nat) as [x Hx].
  { apply Nat.mod_upper_bound. lia. }
  pose proof (list_elem_of_lookup_2 _ _ _ Hx) as Hin.
  apply list_elem_of_fmap in Hin. destruct Hin as ([k dn] & -> & Hin).
  apply elem_of_map_to_list in Hin. exists k, dn. split; [exact Hin | exact Hx].
Qed.

Lemma DistributeBlock_run (rnd : nat) (b : Block) (s : State Packet) :
  datanodemap s <> ∅ ->
  exists k dn, datanodemap s !! k = Some dn
    /\ DistributeBlock rnd b s = (Returned tt, snd (send (block_for dn b) s)).
Proof.
  intros Hne. destruct (chosen_node_exists rnd _ Hne) as (k & dn & Hk & Hpick).
  exists k, dn. split; [exact Hk|].
  unfold DistributeBlock, recovering, bind, gets, index. cbn.
  rewrite Hpick. cbn.
  destruct (Nat.leb_spec (base.size (datanodemap s)) 0) as [Hle|_].
  { apply map_size_non_empty_iff in Hne. lia. }
  reflexivity.
Qed.

Lemma DistributeBlock_sends_one_block (rnd : nat) (b : Block) (s : State Packet) :
  datanodemap s <> ∅ ->
  exists k dn, datanodemap s !! k = Some dn
    /\ fst (DistributeBlock rnd b s) = Returned tt
    /\ sendChannel (snd (DistributeBlock rnd b s)) = sendChannel s ++ [block_for dn b]
    /\ stores (snd (DistributeBlock rnd b s)) = stores s
    /\ headerChannel (snd (DistributeBlock rnd b s)) = headerChannel s.
Proof.
  intros Hne. destruct (DistributeBlock_run rnd b s Hne) as (k & dn & Hk & ->).
  exists k, dn. cbn. auto.
Qed.

Lemma distribute_block_then_ack_fact (rnd : nat) (p : Packet) (s : State Packet) :
  SRC p = "C" -> CMD p = DISTRIBUTE -> datanodemap s <> ∅ ->
  exists k dn, datanodemap s !! k = Some dn
    /\ fst (HandlePacket rnd p s) = Returned tt
    /\ sendChannel (snd (HandlePacket rnd p s))
       = sendChannel s ++ [block_for dn (Data p); template p]
    /\ stores (snd (HandlePacket rnd p s)) = stores s
    /\ headerChannel (snd (HandlePacket rnd p s)) = headerChannel s.
Proof.
  intros Hsrc Hcmd Hne. destruct p as [src dst cmd err data hs].
  cbn in Hsrc, Hcmd. subst src cmd.
  unfold HandlePacket, client_switch, recovering, bind, println, modify, ret, send, template.
  cbn -[DistributeBlock].
  match goal with |- context [DistributeBlock rnd data ?s1] =>
    destruct (DistributeBlock_run rnd data s1 Hne) as (k & dn & Hk & ->) end.
  exists k, dn. cbn. rewrite <- app_assoc. auto.
Qed.

(** X17. [DISTRIBUTE] from the client with at least one datanode registered:
    the block goes to one registered datanode first, with its header's
    datanode id rewritten to that node, then the [ACK] to the client; no
    map changes. *)
Theorem distribute_block_then_ack (rnd : nat) (p : Packet) (s : State Packet) :
  SRC p = "C" -> CMD p = DISTRIBUTE -> datanodemap s <> ∅ ->
  exists k dn, datanodemap s !! k = Some dn
    /\ fst (HandlePacket rnd p s) = Returned tt
    /\ sendChannel (snd (HandlePacket rnd p s))
       = sendChannel s ++ [block_for dn (Data p); template p]
    /\ stores (snd (HandlePacket rnd p s)) = stores s
    /\ headerChannel (snd (HandlePacket rnd p s)) = headerChannel s.
Proof. exact (distribute_block_then_ack_fact rnd p s). Qed.
End DistributeFacts.

(** ** Packets of a registered datanode *)

Section DatanodeSide.
Import V1 Run1.

Lemma enqueue_all (hs : list BlockHeader) (s : State Packet) :
  for_each hs enqueue s
  = (Returned tt,
     mkState (root s) (nodes s) (filemap s) (datanodemap s) (clientMap s) (sendMap s)
       (sendChannel s) (headerChannel s ++ hs) (stdout s)).
Proof.
  revert s. induction hs as [|h hs IH]; intros s.
  - cbn. unfold ret. rewrite app_nil_r. destruct s; reflexivity.
  - cbn [for_each]. unfold bind, enqueue, modify. cbn. rewrite IH. cbn.
    rewrite <- app_assoc. reflexivity.
Qed.

Lemma heartbeat_reply_fact (rnd : nat) (p : Packet) (s : State Packet) (dn : datanode) :
  SRC p <> "" -> SRC p <> "C" -> datanodemap s !! SRC p = Some dn -> CMD p = HB ->
  fst (HandlePacket rnd p s) = Returned tt
  /\ sendChannel (snd (HandlePacket rnd p s))
     = sendChannel s
       ++ [mkPacket "NN" (SRC p) (if listed dn then ACK else LIST) "" zeroBlock []]
  /\ stores (snd (HandlePacket rnd p s)) = stores s
  /\ headerChannel (snd (HandlePacket rnd p s)) = headerChannel s.
Proof.
  intros He Hc Hdn Hcmd. destruct p as [src dst cmd err data hs].
  cbn in He, Hc, Hdn, Hcmd. subst cmd.
  apply String.eqb_neq in He, Hc.
  unfold HandlePacket, datanode_switch, recovering, bind, gets. cbn.
  rewrite He, Hc, Hdn. destruct (listed dn); cbn; auto.
Qed.

(** X11. A heartbeat of a registered datanode is answered with one packet to
    its source: [LIST] while the record is not listed, [ACK] once it is.
    Nothing else changes. *)
Theorem heartbeat_reply (rnd : nat) (p : Packet) (s : State Packet) (dn : datanode) :
  SRC p <> "" -> SRC p <> "C" -> datanodemap s !! SRC p = Some dn -> CMD p = HB ->
  fst (HandlePacket rnd p s) = Returned tt
  /\ sendChannel (snd (HandlePacket rnd p s))
     = sendChannel s
       ++ [mkPacket "NN" (SRC p) (if listed dn then ACK else LIST) "" zeroBlock []]
  /\ stores (snd (HandlePacket rnd p s)) = stores s
  /\ headerChannel (snd (HandlePacket rnd p s)) = headerChannel s.
Proof. exact (heartbeat_reply_fact rnd p s dn). Qed.

Lemma list_enqueues_and_marks_fact (rnd : nat) (p : Packet) (s : State Packet) (dn : datanode) :
  SRC p <> "" -> SRC p <> "C" -> datanodemap s !! SRC p = Some dn -> CMD p = LIST ->
  let s' := snd (HandlePacket rnd p s) in
  fst (HandlePacket rnd p s) = Returned tt
  /\ headerChannel s' = headerChannel s ++ Headers p
  /\ sendChannel s' = sendChannel s ++ [template p]
  /\ datanodemap s' = <[SRC p := mkDatanode (ID dn) true (size dn)]> (datanodemap s)
  /\ (root s', nodes s', filemap s', clientMap s', sendMap s')
     = (root s, nodes s, filemap s, clientMap s, sendMap s).
Proof.
  intros He Hc Hdn Hcmd. destruct p as [src dst cmd err data hs].
  cbn in He, Hc, Hdn, Hcmd. subst cmd.
  apply String.eqb_neq in He, Hc.
  unfold HandlePacket, datanode_switch, recovering, bind, gets. cbn -[for_each].
  rewrite He, Hc, Hdn. cbn -[for_each]. unfold println, modify. cbn -[for_each].
  rewrite enqueue_all. cbn.
  repeat split; try reflexivity.
  apply map_eq. intros k. destruct (decide (src = k)) as [->|Hk].
  - rewrite lookup_alter_eq, lookup_insert_eq, Hdn. reflexivity.
  - rewrite lookup_alter_ne, lookup_insert_ne by exact Hk. reflexivity.
Qed.

(** X12. A [LIST] packet of a registered datanode: every header of the packet
    is put on [headerChannel] in order, the record is marked listed (ID
    and size kept), and one [ACK] goes back. *)
Theorem list_enqueues_and_marks (rnd : nat) (p : Packet) (s : State Packet) (dn : datanode) :
  SRC p <> "" -> SRC p <> "C" -> datanodemap s !! SRC p = Some dn -> CMD p = LIST ->
  let s' := snd (HandlePacket rnd p s) in
  fst (HandlePacket rnd p s) = Returned tt
  /\ headerChannel s' = headerChannel s ++ Headers p
  /\ sendChannel s' = sendChannel s ++ [template p]
  /\ datanodemap s' = <[SRC p := mkDatanode (ID dn) true (size dn)]> (datanodemap s)
  /\ (root s', nodes s', filemap s', clientMap s', sendMap s')
     = (root s, nodes s, filemap s, clientMap s, sendMap s).
Proof. exact (list_enqueues_and_marks_fact rnd p s dn). Qed.

(** X13. After its [LIST] packet was handled, a heartbeat of the same datanode
    is answered with [ACK], no longer with [LIST]. *)
Theorem listed_datanode_gets_ack (rnd rnd' : nat) (p q : Packet) (s : State Packet)
    (dn : datanode) :
  SRC p <> "" -> SRC p <> "C" -> datanodemap s !! SRC p = Some dn -> CMD p = LIST ->
  SRC q = SRC p -> CMD q = HB ->
  let s1 := snd (HandlePacket rnd p s) in
  sendChannel (snd (HandlePacket rnd' q s1))
  = sendChannel s1 ++ [mkPacket "NN" (SRC p) ACK "" zeroBlock []].
Proof.
  intros He Hc Hdn Hcmd Hq Hqc s1.
  destruct (list_enqueues_and_marks_fact rnd p s dn He Hc Hdn Hcmd) as (_ & _ & _ & Hdm & _).
  fold s1 in Hdm.
  assert (Hdn1 : datanodemap s1 !! SRC q = Some (mkDatanode (ID dn) true (size dn))).
  { rewrite Hdm, Hq. apply lookup_insert_eq. }
  destruct (heartbeat_reply_fact rnd' q s1 (mkDatanode (ID dn) true (size dn)))
    as (_ & Hsent & _); rewrite ?Hq; auto.
  - rewrite <- Hq. exact Hdn1.
  - rewrite Hq in Hsent. exact Hsent.
Qed.

(** X14. A [BLOCK] packet of a registered datanode is passed on to the client:
    one packet from the namenode to [C] with the same data, and no other
    change. *)
Theorem block_forwarded_to_client (rnd : nat) (p : Packet) (s : State Packet) (dn : datanode) :
  SRC p <> "" -> SRC p <> "C" -> datanodemap s !! SRC p = Some dn -> CMD p = BLOCK ->
  fst (HandlePacket rnd p s) = Returned tt
  /\ sendChannel (snd (HandlePacket rnd p s))
     = sendChannel s ++ [mkPacket "NN" "C" BLOCK "" (Data p) []]
  /\ stores (snd (HandlePacket rnd p s)) = stores s
  /\ headerChannel (snd (HandlePacket rnd p s)) = headerChannel s.
Proof.
  intros He Hc Hdn Hcmd. destruct p as [src dst cmd err data hs].
  cbn in He, Hc, Hdn, Hcmd. subst cmd.
  apply String.eqb_neq in He, Hc.
  unfold HandlePacket, datanode_switch, recovering, bind, gets. cbn.
  rewrite He, Hc, Hdn. cbn. auto.
Qed.
End DatanodeSide.

(** ** [GETHEADERS] *)

Section ClientSide.
Import V1 Run1.

Lemma first_headers_run (blockMap : gmap Z (list BlockHeader)) (idxs : list nat)
    (s : State Packet) :
  (forall i, i ∈ idxs -> exists h, heads_block blockMap i h) ->
  exists hs s',
    first_headers (Some "") blockMap idxs s = (Returned hs, s')
    /\ Forall2 (heads_block blockMap) idxs hs
    /\ same_but_stdout s s'.
Proof.
  revert s. induction idxs as [|i idxs IH]; intros s Hall.
  - exists [], s. cbn. unfold ret, same_but_stdout. auto.
  - destruct (Hall i) as (h & rest & Hi); [left|].
    cbn [first_headers]. unfold bind, println, modify, index. rewrite Hi.
    cbn -[first_headers].
    match goal with |- context [first_headers _ _ idxs ?s1] =>
      destruct (IH s1) as (hs & s' & Hrun & Hhs & Hst & Hsent & Hhc) end.
    { intros j Hj. apply Hall. right. exact Hj. }
    exists (h :: hs), s'. unfold bind. rewrite Hrun. unfold ret.
    split; [reflexivity|]. split; [constructor; [exists rest; exact Hi | exact Hhs]|].
    unfold same_but_stdout. rewrite Hst, Hsent, Hhc. cbn. auto.
Qed.

(** X15. [GETHEADERS] for a stored file whose blocks [0 .. NumBlocks-1] all
    have an entry: the reply to the client is a [GETHEADERS] packet
    holding, for each block number in order, the first header of its slot. *)
Theorem getheaders_hit (rnd : nat) (p : Packet) (s : State Packet)
    (h0 first : BlockHeader) (rest : list BlockHeader) (blockMap : gmap Z (list BlockHeader)) :
  SRC p = "C" -> CMD p = GETHEADERS -> Headers p = [h0] ->
  filemap s !! Filename h0 = Some blockMap ->
  blockMap !! 0%Z = Some (first :: rest) ->
  (0 <= NumBlocks first)%Z ->
  (forall i, (i < Z.to_nat (NumBlocks first))%nat -> exists h, heads_block blockMap i h) ->
  exists hs,
    Forall2 (heads_block blockMap) (seq 0 (Z.to_nat (NumBlocks first))) hs
    /\ fst (HandlePacket rnd p s) = Returned tt
    /\ sendChannel (snd (HandlePacket rnd p s))
       = sendChannel s ++ [mkPacket "NN" "C" GETHEADERS "" zeroBlock hs]
    /\ stores (snd (HandlePacket rnd p s)) = stores s
    /\ headerChannel (snd (HandlePacket rnd p s)) = headerChannel s.
Proof.
  intros Hsrc Hcmd Hhs Hfm Hb0 Hn Hall. destruct p as [src dst cmd err data hs0].
  cbn in Hsrc, Hcmd, Hhs. subst src cmd hs0.
  unfold HandlePacket, client_switch, recovering, bind, gets, println, modify, index, ret, send.
  cbn -[first_headers]. rewrite Hfm. cbn -[first_headers]. rewrite Hb0. cbn -[first_headers].
  destruct (Z.ltb_spec (NumBlocks first) 0) as [|_]; [lia|].
  match goal with |- context [first_headers _ _ _ ?s1] =>
    destruct (first_headers_run blockMap (seq 0 (Z.to_nat (NumBlocks first))) s1)
      as (hs & s' & Hrun & Hheads & Hst & Hsent & Hhc) end.
  { intros i Hi. apply Hall. apply elem_of_seq in Hi. lia. }
  exists hs. split; [exact Hheads|]. rewrite Hrun. cbn.
  unfold stores in *. cbn in *. rewrite Hsent, Hhc.
  injection Hst as -> -> -> -> -> ->. auto.
Qed.

(** X16. [GETHEADERS] from the client with no header or more than one: the
    reply is [ERROR] with the text of line 369, and no state changes. *)
Theorem getheaders_wrong_header_count (rnd : nat) (p : Packet) (s : State Packet) :
  SRC p = "C" -> CMD p = GETHEADERS -> length (Headers p) <> 1%nat ->
  fst (HandlePacket rnd p s) = Returned tt
  /\ sendChannel (snd (HandlePacket rnd p s))
     = sendChannel s ++ [mkPacket "NN" "C" ERROR "Invalid Header received" zeroBlock []]
  /\ stores (snd (HandlePacket rnd p s)) = stores s
  /\ headerChannel (snd (HandlePacket rnd p s)) = headerChannel s.
Proof.
  intros Hsrc Hcmd Hlen. destruct p as [src dst cmd err data hs].
  cbn in Hsrc, Hcmd, Hlen. subst src cmd.
  destruct hs as [|h [|h' hs]]; [| cbn in Hlen; lia |]; run_handler; auto.
Qed.

Lemma no_reply_without_source_or_to_client_heartbeat (rnd : nat) (p : Packet)
    (s : State Packet) :
  SRC p = "" \/ (SRC p = "C" /\ CMD p = HB) ->
  fst (HandlePacket rnd p s) = Returned tt /\ same_but_stdout s (snd (HandlePacket rnd p s)).
Proof.
  intros H. destruct p as [src dst cmd err data hs]. cbn in H.
  destruct H as [-> | [-> ->]]; run_handler; unfold same_but_stdout; auto.
Qed.
End ClientSide.

(** ** [CheckConnection] *)

Section ConnectionFacts.
Import V1 Run1.

(** X23. The first heartbeat of an unknown datanode through [CheckConnection]:
    a record with its ID, not listed, size 0 is created, the connection is
    stored in [sendMap], and the reply asks for its block list. *)
Theorem new_datanode_registered_and_asked_to_list (rnd conn : nat) (p : Packet)
    (s : State Packet) :
  SRC p <> "" -> SRC p <> "C" -> datanodemap s !! SRC p = None -> CMD p = HB ->
  let s' := snd (CheckConnection rnd conn p s) in
  fst (CheckConnection rnd conn p s) = Returned tt
  /\ datanodemap s' = <[SRC p := mkDatanode (SRC p) false 0]> (datanodemap s)
  /\ sendMap s' = <[SRC p := conn]> (sendMap s)
  /\ sendChannel s' = sendChannel s ++ [mkPacket "NN" (SRC p) LIST "" zeroBlock []]
  /\ (root s', nodes s', filemap s', clientMap s', headerChannel s')
     = (root s, nodes s, filemap s, clientMap s, headerChannel s).
Proof.
  intros He Hc Hdn Hcmd s'. subst s'.
  pose proof He as He'. pose proof Hc as Hc'. apply String.eqb_neq in He', Hc'.
  unfold CheckConnection, bind, gets, println, modify. cbn -[HandlePacket].
  rewrite Hc', Hdn. cbn -[HandlePacket].
  match goal with |- context [HandlePacket rnd p ?s1] =>
    destruct (heartbeat_reply_fact rnd p s1 (mkDatanode (SRC p) false 0) He Hc)
      as (Hret & Hsent & Hst & Hhc) end.
  { cbn. apply lookup_insert_eq. }
  { exact Hcmd. }
  rewrite Hret, Hsent, Hhc. unfold stores in Hst. cbn in Hst.
  injection Hst as -> -> -> -> -> ->. cbn. auto.
Qed.

(** X24. A datanode that has a record and connects again keeps it (size and
    listed flag included); only its entry in [sendMap] is replaced, and
    the heartbeat is answered as usual. *)
Theorem reconnect_keeps_record (rnd conn : nat) (p : Packet) (s : State Packet)
    (dn : datanode) :
  SRC p <> "" -> SRC p <> "C" -> datanodemap s !! SRC p = Some dn -> CMD p = HB ->
  let s' := snd (CheckConnection rnd conn p s) in
  datanodemap s' = datanodemap s
  /\ sendMap s' = <[SRC p := conn]> (sendMap s)
  /\ sendChannel s'
     = sendChannel s
       ++ [mkPacket "NN" (SRC p) (if listed dn then ACK else LIST) "" zeroBlock []].
Proof.
  intros He Hc Hdn Hcmd s'. subst s'.
  pose proof Hc as Hc'. apply String.eqb_neq in Hc'.
  unfold CheckConnection, bind, gets, println, modify. cbn -[HandlePacket].
  rewrite Hc', Hdn. cbn -[HandlePacket].
  match goal with |- context [HandlePacket rnd p ?s1] =>
    destruct (heartbeat_reply_fact rnd p s1 dn He Hc) as (Hret & Hsent & Hst & Hhc) end.
  { exact Hdn. }
  { exact Hcmd. }
  rewrite Hsent. unfold stores in Hst. cbn in Hst.
  injection Hst as _ _ _ Hd _ Hsm. rewrite Hd, Hsm. cbn. auto.
Qed.

Lemma empty_source_registers_a_datanode_fact (rnd conn : nat) (p : Packet) (s : State Packet) :
  SRC p = "" -> datanodemap s !! "" = None ->
  let s' := snd (CheckConnection rnd conn p s) in
  fst (CheckConnection rnd conn p s) = Returned tt
  /\ datanodemap s' = <["" := mkDatanode "" false 0]> (datanodemap s)
  /\ sendMap s' = <["" := conn]> (sendMap s)
  /\ sendChannel s' = sendChannel s.
Proof.
  intros Hsrc Hdn s'. subst s'. destruct p as [src dst cmd err data hs].
  cbn in Hsrc. subst src.
  unfold CheckConnection, HandlePacket, recovering, bind, gets, println, modify. cbn.
  rewrite Hdn. cbn. auto.
Qed.

(** X25. A first packet with an empty source is not screened by
    [CheckConnection]: a datanode record with the empty ID is created and
    the connection stored, and [HandlePacket] then drops the packet
    without a reply. *)
Theorem empty_source_registers_a_datanode (rnd conn : nat) (p : Packet) (s : State Packet) :
  SRC p = "" -> datanodemap s !! "" = None ->
  let s' := snd (CheckConnection rnd conn p s) in
  fst (CheckConnection rnd conn p s) = Returned tt
  /\ datanodemap s' = <["" := mkDatanode "" false 0]> (datanodemap s)
  /\ sendMap s' = <["" := conn]> (sendMap s)
  /\ sendChannel s' = sendChannel s.
Proof. exact (empty_source_registers_a_datanode_fact rnd conn p s). Qed.

(** X26. After a connection with an empty source on a namenode without
    datanodes, a [DISTRIBUTE] of the client sends the block to the
    datanode named by the empty string. *)
Theorem block_sent_to_the_empty_name (rnd rnd' conn : nat) (p q : Packet) (s : State Packet) :
  SRC p = "" -> datanodemap s = ∅ -> SRC q = "C" -> CMD q = DISTRIBUTE ->
  let s1 := snd (CheckConnection rnd conn p s) in
  sendChannel (snd (HandlePacket rnd' q s1))
  = sendChannel s ++ [block_for (mkDatanode "" false 0) (Data q); template q].
Proof.
  intros Hsrc Hdm Hq Hqc s1.
  destruct (empty_source_registers_a_datanode_fact rnd conn p s Hsrc) as (_ & Hdm1 & _ & Hsent1).
  { rewrite Hdm. apply lookup_empty. }
  fold s1 in Hdm1, Hsent1.
  destruct (distribute_block_then_ack_fact rnd' q s1 Hq Hqc) as (k & dn & Hk & _ & Hsent & _).
  { rewrite Hdm1. apply insert_non_empty. }
  rewrite Hdm1, Hdm in Hk. apply lookup_insert_Some in Hk.
  destruct Hk as [[_ <-] | [_ Hk]]; [| rewrite lookup_empty in Hk; discriminate].
  rewrite Hsent, Hsent1. reflexivity.
Qed.
End ConnectionFacts.

(** ** Paths and [ContainsHeader] *)

Section PathFacts.

Lemma header_eqb_eq (a b : BlockHeader) : header_eqb a b = true <-> a = b.
Proof.
  unfold header_eqb. rewrite !andb_true_iff, !String.eqb_eq, !Z.eqb_eq.
  destruct a, b; cbn. split.
  - intros [[[[-> ->] ->] ->] ->]. reflexivity.
  - intros [= -> -> -> -> ->]. auto.
Qed.

Lemma ContainsHeader_spec_fact (arr : list BlockHeader) (h : BlockHeader) :
  ContainsHeader arr h = true <-> h ∈ arr.
Proof.
  induction arr as [|v arr IH]; cbn.
  - rewrite elem_of_nil. split; [discriminate | tauto].
  - rewrite elem_of_cons. destruct (header_eqb h v) eqn:E.
    + apply header_eqb_eq in E. tauto.
    + rewrite IH. split; [tauto|]. intros [Heq | Hin]; [|exact Hin].
      apply header_eqb_eq in Heq. congruence.
Qed.

(** X1. [ContainsHeader] returns true exactly when the header is an element of
    the slice: the loop compares whole structs, all five fields. *)
Theorem ContainsHeader_spec (arr : list BlockHeader) (h : BlockHeader) :
  ContainsHeader arr h = true <-> h ∈ arr.
Proof. exact (ContainsHeader_spec_fact arr h). Qed.

Lemma Split_nonempty (s : string) (sep : ascii) : Split s sep <> [].
Proof.
  destruct s as [|c s]; cbn; [discriminate|].
  destruct (Ascii.eqb c sep); [discriminate|]. destruct (Split s sep); discriminate.
Qed.

Lemma Split_without (s : string) (sep : ascii) :
  has_byte sep s = false -> Split s sep = [s].
Proof.
  induction s as [|c s IH]; cbn [Split has_byte]; [reflexivity|].
  intros H. apply orb_false_iff in H. destruct H as [Hc Hs].
  rewrite Hc, (IH Hs). reflexivity.
Qed.

Lemma Split_prefix (a rest : string) (sep : ascii) :
  has_byte sep a = false ->
  Split (a +:+ String sep rest) sep = a :: Split rest sep.
Proof.
  induction a as [|c a IH]; intros H.
  - change ("" +:+ String sep rest) with (String sep rest).
    cbn [Split]. rewrite Ascii.eqb_refl. reflexivity.
  - change (String c a +:+ String sep rest) with (String c (a +:+ String sep rest)).
    cbn [has_byte] in H. apply orb_false_iff in H. destruct H as [Hc Ha].
    cbn [Split]. rewrite Hc, (IH Ha). reflexivity.
Qed.

Lemma concat_cons2 (sep x y : string) (l : list string) :
  String.concat sep (x :: y :: l) = x +:+ sep +:+ String.concat sep (y :: l).
Proof. reflexivity. Qed.

Lemma Join_Split (s : string) : Join (Split s slash) "/" = s.
Proof.
  unfold Join. induction s as [|c s IH]; [reflexivity|].
  cbn [Split]. destruct (Ascii.eqb c slash) eqn:E.
  - apply Ascii.eqb_eq in E. subst c.
    destruct (Split s slash) as [|seg segs] eqn:Hs; [destruct (Split_nonempty _ _ Hs)|].
    rewrite concat_cons2, IH. reflexivity.
  - destruct (Split s slash) as [|seg segs] eqn:Hs; [destruct (Split_nonempty _ _ Hs)|].
    destruct segs as [|seg' segs].
    + cbn [String.concat] in *. rewrite IH. reflexivity.
    + rewrite concat_cons2 in IH. rewrite concat_cons2.
      change (String c seg +:+ "/" +:+ String.concat "/" (seg' :: segs))
        with (String c (seg +:+ "/" +:+ String.concat "/" (seg' :: segs))).
      rewrite IH. reflexivity.
Qed.

Lemma last_partial_is_the_path (p : string) :
  Join (take (length (Split p slash)) (Split p slash)) "/" = p.
Proof. rewrite firstn_all. apply Join_Split. Qed.
End PathFacts.

(** ** [MergeNode]: headers it rejects or ignores *)

Section MergeGeneral.
Import V1 Run1.

Lemma find_child_state {P} (cs : list (option ptr)) (partial : string) (s : State P) :
  snd (find_child cs partial s) = s.
Proof.
  induction cs as [|[v|] cs IH]; cbn; [reflexivity | | reflexivity].
  unfold bind, deref. destruct (nodes s !! v) as [nd|]; [|reflexivity].
  destruct (String.eqb (path nd) partial); [reflexivity | exact IH].
Qed.

Lemma MergeNode_rejection_changes_nothing_fact (h : BlockHeader) (s : State Packet) :
  invalid_header h = true \/ datanodemap s !! DatanodeID h = None ->
  exists e, MergeNode h s = (Returned (Some e), s).
Proof.
  intros H. unfold MergeNode. destruct (invalid_header h) eqn:Hv.
  - eexists. reflexivity.
  - destruct H as [H|H]; [discriminate|].
    unfold bind, gets. rewrite H. eexists. reflexivity.
Qed.

(** X2. A header that fails the range guard, or that names a datanode without
    a record, makes [MergeNode] return an error and leaves the whole state
    as it was. *)
Theorem MergeNode_rejection_changes_nothing (h : BlockHeader) (s : State Packet) :
  invalid_header h = true \/ datanodemap s !! DatanodeID h = None ->
  exists e, MergeNode h s = (Returned (Some e), s).
Proof. exact (MergeNode_rejection_changes_nothing_fact h s). Qed.

(** X3. A valid header of a registered datanode whose file name holds no slash
    is accepted without effect: [Split] gives one segment, the walk over
    [path_arr[1:]] has nothing to do, and [MergeNode] returns nil with the
    state unchanged. *)
Theorem MergeNode_relative_name_ignored (h : BlockHeader) (s : State Packet) (dn : datanode) :
  invalid_header h = false -> datanodemap s !! DatanodeID h = Some dn ->
  has_byte slash (Filename h) = false ->
  MergeNode h s = (Returned None, s).
Proof.
  intros Hv Hdn Hrel. unfold MergeNode. rewrite Hv. unfold bind at 1, gets at 1.
  rewrite Hdn. rewrite (Split_without _ _ Hrel). cbn. reflexivity.
Qed.
End MergeGeneral.

(** ** [MergeNode]: one iteration of the walk *)

Section MergeSteps.
Import V1 Run1.

Lemma find_child_run {P} (cs : list (option ptr)) (partial : string) (s : State P)
    (o : outcome (option ptr)) :
  fst (find_child cs partial s) = o -> find_child cs partial s = (o, s).
Proof.
  intros H. rewrite <- (find_child_state cs partial s) at 2.
  rewrite <- H. destruct (find_child cs partial s); reflexivity.
Qed.

Lemma merge_at_creates_file (h : BlockHeader) (path_arr : list string) (q i : nat)
    (s : State Packet) (nd : filenode) (dn : datanode) :
  i <> 0%nat -> Join (take (i + 1) path_arr) "/" = Filename h ->
  nodes s !! q = Some nd ->
  fst (find_child (children nd) (Filename h) s) = Returned None ->
  datanodemap s !! DatanodeID h = Some dn ->
  merge_at h path_arr q i s
  = (Returned (Next (length (nodes s))),
     mkState (root s)
       (<[q := mkFilenode (path nd) (parent nd) (children nd ++ [Some (length (nodes s))])]>
          (nodes s ++ [mkFilenode (Filename h) (Some q) [None]]))
       (<[Filename h := {[BlockNum h := [h]]}]> (filemap s))
       (<[DatanodeID h := mkDatanode (ID dn) (listed dn) (wrap64 (size dn + Size h))]>
          (datanodemap s))
       (clientMap s) (sendMap s) (sendChannel s) (headerChannel s) (stdout s)).
Proof.
  intros Hi Hjoin Hnd Hnone Hdn.
  pose proof (lookup_lt_Some _ _ _ Hnd) as Hq.
  unfold merge_at. destruct i as [|i]; [contradiction|]. cbn [Nat.eqb].
  rewrite Hjoin, String.eqb_refl.
  merge_step. rewrite Hnd. merge_step.
  rewrite (find_child_run _ _ _ _ Hnone). merge_step.
  rewrite lookup_insert_eq. merge_step. rewrite Hdn. merge_step.
  rewrite list_lookup_middle by reflexivity. merge_step.
  rewrite list_lookup_insert_ne by lia. rewrite lookup_app_l by lia. rewrite Hnd. merge_step.
  rewrite insert_insert_eq, insert_empty.
  rewrite (list_insert_id (nodes s ++ _) (length (nodes s)))
    by (apply list_lookup_middle; reflexivity).
  reflexivity.
Qed.

Lemma merge_at_creates_directory (h : BlockHeader) (path_arr : list string) (q i : nat)
    (s : State Packet) (nd : filenode) (partial : string) :
  i <> 0%nat -> Join (take (i + 1) path_arr) "/" = partial -> partial <> Filename h ->
  nodes s !! q = Some nd ->
  fst (find_child (children nd) partial s) = Returned None ->
  merge_at h path_arr q i s
  = (Returned (Next (length (nodes s))),
     mkState (root s)
       (<[q := mkFilenode (path nd) (parent nd) (children nd ++ [Some (length (nodes s))])]>
          (nodes s ++ [mkFilenode partial (Some q) [None]]))
       (filemap s) (datanodemap s)
       (clientMap s) (sendMap s) (sendChannel s) (headerChannel s) (stdout s)).
Proof.
  intros Hi Hjoin Hne Hnd Hnone.
  pose proof (lookup_lt_Some _ _ _ Hnd) as Hq.
  apply String.eqb_neq in Hne.
  unfold merge_at. destruct i as [|i]; [contradiction|]. cbn [Nat.eqb].
  rewrite Hjoin, Hne.
  merge_step. rewrite Hnd. merge_step.
  rewrite (find_child_run _ _ _ _ Hnone). merge_step.
  rewrite list_lookup_middle by reflexivity. merge_step.
  rewrite list_lookup_insert_ne by lia. rewrite lookup_app_l by lia. rewrite Hnd. merge_step.
  rewrite (list_insert_id (nodes s ++ _) (length (nodes s)))
    by (apply list_lookup_middle; reflexivity).
  reflexivity.
Qed.

Lemma merge_at_finds_file (h : BlockHeader) (path_arr : list string) (q i v : nat)
    (s : State Packet) (nd : filenode) (dn : datanode) (blks : gmap Z (list BlockHeader)) :
  i <> 0%nat -> Join (take (i + 1) path_arr) "/" = Filename h ->
  nodes s !! q = Some nd ->
  fst (find_child (children nd) (Filename h) s) = Returned (Some v) ->
  filemap s !! Filename h = Some blks ->
  datanodemap s !! DatanodeID h = Some dn ->
  merge_at h path_arr q i s
  = (Returned (Next v),
     mkState (root s) (nodes s)
       (match blks !! BlockNum h with
        | None => <[Filename h := <[BlockNum h := [h]]> blks]> (filemap s)
        | Some arr =>
            if ContainsHeader arr h then filemap s
            else <[Filename h := <[BlockNum h := arr ++ [h]]> blks]> (filemap s)
        end)
       (<[DatanodeID h := mkDatanode (ID dn) (listed dn) (wrap64 (size dn + Size h))]>
          (datanodemap s))
       (clientMap s) (sendMap s) (sendChannel s) (headerChannel s) (stdout s)).
Proof.
  intros Hi Hjoin Hnd Hfound Hfm Hdn.
  unfold merge_at. destruct i as [|i]; [contradiction|]. cbn [Nat.eqb].
  rewrite Hjoin, String.eqb_refl.
  merge_step. rewrite Hnd. merge_step.
  rewrite (find_child_run _ _ _ _ Hfound). merge_step. rewrite Hfm. merge_step.
  destruct (blks !! BlockNum h) as [arr|]; merge_step.
  - destruct (ContainsHeader arr h); merge_step.
    + rewrite Hdn. merge_step. destruct s; reflexivity.
    + rewrite Hfm. merge_step. rewrite Hdn. merge_step. reflexivity.
  - rewrite Hfm. merge_step. rewrite Hdn. merge_step. reflexivity.
Qed.

Lemma merge_at_finds_directory (h : BlockHeader) (path_arr : list string) (q i v : nat)
    (s : State Packet) (nd : filenode) :
  i <> 0%nat -> Join (take (i + 1) path_arr) "/" = Filename h ->
  nodes s !! q = Some nd ->
  fst (find_child (children nd) (Filename h) s) = Returned (Some v) ->
  filemap s !! Filename h = None ->
  merge_at h path_arr q i s
  = (Returned (Return (Some "Attempted to add to filenode that does not exist!")), s).
Proof.
  intros Hi Hjoin Hnd Hfound Hfm.
  unfold merge_at. destruct i as [|i]; [contradiction|]. cbn [Nat.eqb].
  rewrite Hjoin, String.eqb_refl.
  merge_step. rewrite Hnd. merge_step.
  rewrite (find_child_run _ _ _ _ Hfound). merge_step. rewrite Hfm. reflexivity.
Qed.

Lemma merge_at_nil_child (h : BlockHeader) (path_arr : list string) (q i : nat)
    (s : State Packet) (nd : filenode) (rest : list (option ptr)) :
  i <> 0%nat -> nodes s !! q = Some nd -> children nd = None :: rest ->
  merge_at h path_arr q i s = (Panicked nil_deref, s).
Proof.
  intros Hi Hnd Hch.
  unfold merge_at. destruct i as [|i]; [contradiction|]. cbn [Nat.eqb].
  merge_step. rewrite Hnd. merge_step. rewrite Hch. reflexivity.
Qed.
End MergeSteps.

(** ** [MergeNode]: files directly under the root *)

Section MergeTopLevel.
Import V1 Run1.

Lemma MergeNode_top_level (h : BlockHeader) (s : State Packet) (dn : datanode) (name : string) :
  invalid_header h = false -> datanodemap s !! DatanodeID h = Some dn ->
  Filename h = String slash name -> has_byte slash name = false ->
  MergeNode h s
  = (let (o, s') := merge_at h [""; name] (root s) 1 s in
     match o with
     | Returned (Next _) => (Returned None, s')
     | Returned (Return e) => (Returned e, s')
     | Panicked r => (Panicked r, s')
     end).
Proof.
  intros Hv Hdn Hname Hrel. unfold MergeNode. rewrite Hv.
  unfold bind at 1, gets at 1. rewrite Hdn. rewrite Hname.
  cbn [Split]. rewrite Ascii.eqb_refl. rewrite (Split_without _ _ Hrel).
  cbn [length seq walk_from]. unfold bind at 1, gets at 1.
  unfold bind at 1. unfold merge_at at 1. cbn [Nat.eqb]. unfold ret at 1.
  unfold bind. destruct (merge_at h [""; name] (root s) 1 s) as [[[q|e]|r] s']; reflexivity.
Qed.

Lemma top_level_partial (h : BlockHeader) (name : string) :
  Filename h = String slash name -> Join (take (1 + 1) [""; name]) "/" = Filename h.
Proof. intros ->. reflexivity. Qed.

(** X4. A valid header for a new file directly under the root: [MergeNode]
    returns nil, appends one node (whose children slice holds one nil
    pointer) to the root, stores [filemap[name][BlockNum] = [h]] and adds
    [h.Size] to the datanode, and touches nothing else. *)
Theorem MergeNode_stores_new_top_level_file (h : BlockHeader) (s : State Packet)
    (dn : datanode) (rt : filenode) (name : string) :
  invalid_header h = false -> datanodemap s !! DatanodeID h = Some dn ->
  Filename h = String slash name -> has_byte slash name = false ->
  nodes s !! root s = Some rt ->
  fst (find_child (children rt) (Filename h) s) = Returned None ->
  MergeNode h s
  = (Returned None,
     mkState (root s)
       (<[root s := mkFilenode (path rt) (parent rt)
                      (children rt ++ [Some (length (nodes s))])]>
          (nodes s ++ [mkFilenode (Filename h) (Some (root s)) [None]]))
       (<[Filename h := {[BlockNum h := [h]]}]> (filemap s))
       (<[DatanodeID h := mkDatanode (ID dn) (listed dn) (wrap64 (size dn + Size h))]>
          (datanodemap s))
       (clientMap s) (sendMap s) (sendChannel s) (headerChannel s) (stdout s)).
Proof.
  intros Hv Hdn Hname Hrel Hrt Hnone.
  rewrite (MergeNode_top_level h s dn name Hv Hdn Hname Hrel).
  rewrite (merge_at_creates_file h _ (root s) 1 s rt dn); auto using top_level_partial.
Qed.

Lemma MergeNode_existing_top_level_file (h : BlockHeader) (s : State Packet)
    (dn : datanode) (rt : filenode) (name : string) (v : nat)
    (blks : gmap Z (list BlockHeader)) :
  invalid_header h = false -> datanodemap s !! DatanodeID h = Some dn ->
  Filename h = String slash name -> has_byte slash name = false ->
  nodes s !! root s = Some rt ->
  fst (find_child (children rt) (Filename h) s) = Returned (Some v) ->
  filemap s !! Filename h = Some blks ->
  MergeNode h s
  = (Returned None,
     mkState (root s) (nodes s)
       (match blks !! BlockNum h with
        | None => <[Filename h := <[BlockNum h := [h]]> blks]> (filemap s)
        | Some arr =>
            if ContainsHeader arr h then filemap s
            else <[Filename h := <[BlockNum h := arr ++ [h]]> blks]> (filemap s)
        end)
       (<[DatanodeID h := mkDatanode (ID dn) (listed dn) (wrap64 (size dn + Size h))]>
          (datanodemap s))
       (clientMap s) (sendMap s) (sendChannel s) (headerChannel s) (stdout s)).
Proof.
  intros Hv Hdn Hname Hrel Hrt Hfound Hfm.
  rewrite (MergeNode_top_level h s dn name Hv Hdn Hname Hrel).
  rewrite (merge_at_finds_file h _ (root s) 1 v s rt dn blks); auto using top_level_partial.
Qed.

(** X5. A header already stored for an existing top-level file: [MergeNode]
    returns nil, the index and the tree stay as they are, and the size of
    the datanode is increased once more. *)
Theorem MergeNode_counts_a_duplicate_again (h : BlockHeader) (s : State Packet)
    (dn : datanode) (rt : filenode) (name : string) (v : nat)
    (blks : gmap Z (list BlockHeader)) (arr : list BlockHeader) :
  invalid_header h = false -> datanodemap s !! DatanodeID h = Some dn ->
  Filename h = String slash name -> has_byte slash name = false ->
  nodes s !! root s = Some rt ->
  fst (find_child (children rt) (Filename h) s) = Returned (Some v) ->
  filemap s !! Filename h = Some blks -> blks !! BlockNum h = Some arr -> h ∈ arr ->
  let s' := snd (MergeNode h s) in
  fst (MergeNode h s) = Returned None
  /\ filemap s' = filemap s
  /\ nodes s' = nodes s
  /\ datanodemap s'
     = <[DatanodeID h := mkDatanode (ID dn) (listed dn) (wrap64 (size dn + Size h))]>
         (datanodemap s).
Proof.
  intros Hv Hdn Hname Hrel Hrt Hfound Hfm Harr Hin s'. subst s'.
  rewrite (MergeNode_existing_top_level_file h s dn rt name v blks); auto.
  apply ContainsHeader_spec_fact in Hin. rewrite Harr, Hin. cbn. auto.
Qed.

(** X6. A header not yet in its slot of an existing top-level file:
    [MergeNode] returns nil and appends it at the end of that slot; the
    other slots of the file, the other files and the tree are unchanged. *)
Theorem MergeNode_appends_a_new_placement (h : BlockHeader) (s : State Packet)
    (dn : datanode) (rt : filenode) (name : string) (v : nat)
    (blks : gmap Z (list BlockHeader)) :
  invalid_header h = false -> datanodemap s !! DatanodeID h = Some dn ->
  Filename h = String slash name -> has_byte slash name = false ->
  nodes s !! root s = Some rt ->
  fst (find_child (children rt) (Filename h) s) = Returned (Some v) ->
  filemap s !! Filename h = Some blks -> h ∉ default [] (blks !! BlockNum h) ->
  let s' := snd (MergeNode h s) in
  fst (MergeNode h s) = Returned None
  /\ load_slot (Filename h) (BlockNum h) s' = Some (default [] (blks !! BlockNum h) ++ [h])
  /\ (forall i, i <> BlockNum h -> load_slot (Filename h) i s' = blks !! i)
  /\ (forall p, p <> Filename h -> filemap s' !! p = filemap s !! p)
  /\ nodes s' = nodes s.
Proof.
  intros Hv Hdn Hname Hrel Hrt Hfound Hfm Hnew s'. subst s'.
  rewrite (MergeNode_existing_top_level_file h s dn rt name v blks); auto.
  unfold load_slot. cbn.
  destruct (blks !! BlockNum h) as [arr|] eqn:Harr; cbn in Hnew.
  - destruct (ContainsHeader arr h) eqn:Hc.
    { apply ContainsHeader_spec_fact in Hc. contradiction. }
    rewrite lookup_insert_eq. rewrite lookup_insert_eq.
    repeat split; auto.
    + intros i Hi. rewrite lookup_insert_ne by congruence. reflexivity.
    + intros p Hp. rewrite lookup_insert_ne by congruence. reflexivity.
  - rewrite lookup_insert_eq. rewrite lookup_insert_eq.
    repeat split; auto.
    + intros i Hi. rewrite lookup_insert_ne by congruence. reflexivity.
    + intros p Hp. rewrite lookup_insert_ne by congruence. reflexivity.
Qed.

(** X7. A header whose name is that of an existing top-level node without an
    entry in the index (a directory): [MergeNode] returns the error of
    line 190 and changes nothing. *)
Theorem MergeNode_rejects_a_file_over_a_directory (h : BlockHeader) (s : State Packet)
    (dn : datanode) (rt : filenode) (name : string) (v : nat) :
  invalid_header h = false -> datanodemap s !! DatanodeID h = Some dn ->
  Filename h = String slash name -> has_byte slash name = false ->
  nodes s !! root s = Some rt ->
  fst (find_child (children rt) (Filename h) s) = Returned (Some v) ->
  filemap s !! Filename h = None ->
  MergeNode h s
  = (Returned (Some "Attempted to add to filenode that does not exist!"), s).
Proof.
  intros Hv Hdn Hname Hrel Hrt Hfound Hfm.
  rewrite (MergeNode_top_level h s dn name Hv Hdn Hname Hrel).
  rewrite (merge_at_finds_directory h _ (root s) 1 v s rt); auto using top_level_partial.
Qed.
End MergeTopLevel.

(** ** [MergeNode]: what an iteration can do to the state *)

Section MergeShapes.
Import V1 Run1.

Lemma merge_at_descends (h : BlockHeader) (path_arr : list string) (q i v : nat)
    (s : State Packet) (nd : filenode) (partial : string) :
  i <> 0%nat -> Join (take (i + 1) path_arr) "/" = partial -> partial <> Filename h ->
  nodes s !! q = Some nd ->
  fst (find_child (children nd) partial s) = Returned (Some v) ->
  merge_at h path_arr q i s = (Returned (Next v), s).
Proof.
  intros Hi Hjoin Hne Hnd Hfound. apply String.eqb_neq in Hne.
  unfold merge_at. destruct i as [|i]; [contradiction|]. cbn [Nat.eqb].
  rewrite Hjoin, Hne. merge_step. rewrite Hnd. merge_step.
  rewrite (find_child_run _ _ _ _ Hfound). reflexivity.
Qed.

Lemma merge_at_find_panics (h : BlockHeader) (path_arr : list string) (q i : nat)
    (s : State Packet) (nd : filenode) (partial r : string) :
  i <> 0%nat -> Join (take (i + 1) path_arr) "/" = partial -> nodes s !! q = Some nd ->
  fst (find_child (children nd) partial s) = Panicked r ->
  merge_at h path_arr q i s = (Panicked r, s).
Proof.
  intros Hi Hjoin Hnd Hp.
  unfold merge_at. destruct i as [|i]; [contradiction|]. cbn [Nat.eqb].
  rewrite Hjoin. merge_step. rewrite Hnd. merge_step.
  rewrite (find_child_run _ _ _ _ Hp). reflexivity.
Qed.

(** One iteration either leaves the state alone, or creates the node of
    its segment, or places the header in the index. *)
Lemma merge_at_shapes (h : BlockHeader) (path_arr : list string) (q i : nat)
    (s : State Packet) (dn : datanode) :
  datanodemap s !! DatanodeID h = Some dn ->
  snd (merge_at h path_arr q i s) = s
  \/ created h (Join (take (i + 1) path_arr) "/") q s (snd (merge_at h path_arr q i s))
  \/ placed h s (snd (merge_at h path_arr q i s)).
Proof.
  intros Hdn. destruct i as [|i]; [left; reflexivity|].
  set (partial := Join (take (S i + 1) path_arr) "/").
  destruct (nodes s !! q) as [nd|] eqn:Hnd.
  2:{ left. unfold merge_at. cbn [Nat.eqb]. merge_step. rewrite Hnd. reflexivity. }
  destruct (fst (find_child (children nd) partial s)) as [[v|]|r] eqn:Hfc.
  - destruct (String.eqb_spec partial (Filename h)) as [Heq|Hne].
    + destruct (filemap s !! Filename h) as [blks|] eqn:Hfm.
      * right; right. rewrite Heq in Hfc.
        rewrite (merge_at_finds_file h path_arr q (S i) v s nd dn blks); auto.
        exists blks, dn. auto.
      * left. rewrite Heq in Hfc.
        rewrite (merge_at_finds_directory h path_arr q (S i) v s nd); auto.
    + left. rewrite (merge_at_descends h path_arr q (S i) v s nd partial); auto.
  - right; left. exists nd, dn. repeat split; auto.
    destruct (String.eqb_spec partial (Filename h)) as [Heq|Hne].
    + rewrite Heq in Hfc.
      rewrite (merge_at_creates_file h path_arr q (S i) s nd dn); auto.
      fold partial. rewrite Heq. reflexivity.
    + rewrite (merge_at_creates_directory h path_arr q (S i) s nd partial); auto.
  - left. rewrite (merge_at_find_panics h path_arr q (S i) s nd partial r); auto.
Qed.
End MergeShapes.

(** ** The tree invariant *)

Section TreeInvariant.
Import V1 Run1.

Lemma tree_ok_Init {P} : tree_ok (@Init P).
Proof.
  unfold tree_ok, Init. cbn. split; [lia|]. split.
  - intros [|v] nd Hv Hne; [contradiction | destruct v; discriminate].
  - intros rt [= <-] c Hc. cbn in Hc. inversion Hc.
Qed.

Lemma tree_ok_same_tree {P Q} (s : State P) (s' : State Q) :
  root s' = root s -> nodes s' = nodes s -> tree_ok s -> tree_ok s'.
Proof. unfold tree_ok. intros -> ->. auto. Qed.

Lemma created_under_root (h : BlockHeader) (partial : string) (q : ptr)
    (s s' : State Packet) :
  tree_ok s -> created h partial q s s' -> q = root s.
Proof.
  intros (_ & Hnil & _) (nd & dn & Hnd & Hnone & _).
  destruct (decide (q = root s)) as [|Hne]; [assumption|].
  destruct (Hnil q nd Hnd Hne) as [rest Hrest]. rewrite Hrest in Hnone. discriminate.
Qed.

Lemma created_tree_ok (h : BlockHeader) (partial : string) (q : ptr) (s s' : State Packet) :
  tree_ok s -> created h partial q s s' -> tree_ok s'.
Proof.
  intros Hok Hc. pose proof (created_under_root _ _ _ _ _ Hok Hc) as ->.
  destruct Hok as (Hroot & Hnil & Hkids).
  destruct Hc as (rt & dn & Hrt & _ & _ & ->). unfold tree_ok. cbn.
  rewrite length_insert, length_app. cbn. split; [lia|]. split.
  - intros v nd Hv Hne. rewrite list_lookup_insert_ne in Hv by congruence.
    destruct (decide (v < length (nodes s))) as [Hlt|Hge].
    + rewrite lookup_app_l in Hv by exact Hlt. eauto.
    + rewrite lookup_app_r in Hv by lia.
      destruct (v - length (nodes s))%nat as [|k]; [|destruct k; discriminate].
      injection Hv as <-. eexists. reflexivity.
  - intros rt'. rewrite list_lookup_insert_eq by (rewrite length_app; cbn; lia).
    intros [= <-] c Hc. cbn in Hc. apply elem_of_app in Hc. destruct Hc as [Hc|Hc].
    + destruct (Hkids rt Hrt c Hc) as (v & -> & Hv & Hlt). exists v. repeat split; auto. lia.
    + apply list_elem_of_singleton in Hc. subst c.
      exists (length (nodes s)). repeat split; lia.
Qed.

Lemma placed_tree_ok (h : BlockHeader) (s s' : State Packet) :
  tree_ok s -> placed h s s' -> tree_ok s'.
Proof.
  intros Hok (blks & dn & _ & _ & ->). revert Hok. apply tree_ok_same_tree; reflexivity.
Qed.

Lemma created_registered (h : BlockHeader) (partial : string) (q : ptr) (s s' : State Packet) :
  created h partial q s s' -> is_Some (datanodemap s' !! DatanodeID h).
Proof.
  intros (nd & dn & _ & _ & Hdn & ->). cbn.
  destruct (String.eqb partial (Filename h)); [rewrite lookup_insert_eq|]; eauto.
Qed.

Lemma placed_registered (h : BlockHeader) (s s' : State Packet) :
  placed h s s' -> is_Some (datanodemap s' !! DatanodeID h).
Proof. intros (blks & dn & _ & _ & ->). cbn. rewrite lookup_insert_eq. eauto. Qed.

(** An invariant of the state that every iteration keeps while the
    datanode of the header has a record is kept by the whole walk. *)
Lemma walk_from_keeps (I : State Packet -> Prop) (h : BlockHeader) (path_arr : list string) :
  (forall q i s, I s -> is_Some (datanodemap s !! DatanodeID h) ->
     I (snd (merge_at h path_arr q i s))) ->
  forall idxs q s, I s -> is_Some (datanodemap s !! DatanodeID h) ->
    I (snd (walk_from (merge_at h path_arr) q idxs s)).
Proof.
  intros Hstep idxs. induction idxs as [|i idxs IH]; intros q s HI Hreg; [exact HI|].
  cbn [walk_from]. unfold bind.
  pose proof (Hstep q i s HI Hreg) as HI1.
  assert (Hreg1 : is_Some (datanodemap (snd (merge_at h path_arr q i s)) !! DatanodeID h)).
  { destruct Hreg as [dn Hdn].
    destruct (merge_at_shapes h path_arr q i s dn Hdn) as [-> | [Hc | Hp]];
      eauto using created_registered, placed_registered. }
  destruct (merge_at h path_arr q i s) as [[[q'|e]|r] s1]; cbn in *; auto.
Qed.

Lemma MergeNode_keeps (I : State Packet -> Prop) (h : BlockHeader) :
  (forall path_arr q i s, I s -> is_Some (datanodemap s !! DatanodeID h) ->
     I (snd (merge_at h path_arr q i s))) ->
  forall s, I s -> I (snd (MergeNode h s)).
Proof.
  intros Hstep s HI. unfold MergeNode. destruct (invalid_header h); [exact HI|].
  unfold bind at 1, gets at 1. destruct (datanodemap s !! DatanodeID h) as [dn|] eqn:Hdn;
    [|exact HI].
  unfold bind at 1, gets at 1. apply walk_from_keeps; eauto.
Qed.

Lemma MergeNode_keeps_tree_ok (h : BlockHeader) (s : State Packet) :
  tree_ok s -> tree_ok (snd (MergeNode h s)).
Proof.
  apply MergeNode_keeps. intros path_arr q i s0 Hok [dn Hdn].
  destruct (merge_at_shapes h path_arr q i s0 dn Hdn) as [-> | [Hc | Hp]];
    eauto using created_tree_ok, placed_tree_ok.
Qed.
End TreeInvariant.

(** ** The index invariant *)

Section IndexInvariant.
Import V1 Run1.

Lemma index_ok_insert (fm : gmap string (gmap Z (list BlockHeader))) (h : BlockHeader)
    (blks : gmap Z (list BlockHeader)) (arr : list BlockHeader) :
  index_ok fm ->
  (forall i a, blks !! i = Some a ->
     NoDup a /\ forall x, x ∈ a -> Filename x = Filename h /\ BlockNum x = i) ->
  NoDup arr -> (forall x, x ∈ arr -> Filename x = Filename h /\ BlockNum x = BlockNum h) ->
  index_ok (<[Filename h := <[BlockNum h := arr]> blks]> fm).
Proof.
  intros Hok Hblks Hnd Harr p b i a Hp Hi.
  apply lookup_insert_Some in Hp. destruct Hp as [[<- <-] | [_ Hp]]; [|eapply Hok; eauto].
  apply lookup_insert_Some in Hi. destruct Hi as [[<- <-] | [_ Hi]]; [auto | eauto].
Qed.

Lemma one_header_ok (h x : BlockHeader) :
  x ∈ [h] -> Filename x = Filename h /\ BlockNum x = BlockNum h.
Proof. intros Hx. apply list_elem_of_singleton in Hx. subst x. auto. Qed.

Lemma created_index_ok (h : BlockHeader) (partial : string) (q : ptr) (s s' : State Packet) :
  index_ok (filemap s) -> created h partial q s s' -> index_ok (filemap s').
Proof.
  intros Hok (nd & dn & _ & _ & _ & ->). cbn.
  destruct (String.eqb partial (Filename h)); [|exact Hok].
  rewrite <- insert_empty. apply index_ok_insert; auto using one_header_ok.
  - intros i a Hi. rewrite lookup_empty in Hi. discriminate.
  - apply NoDup_singleton.
Qed.

Lemma placed_index_ok (h : BlockHeader) (s s' : State Packet) :
  index_ok (filemap s) -> placed h s s' -> index_ok (filemap s').
Proof.
  intros Hok (blks & dn & Hfm & _ & ->). cbn.
  assert (Hblks : forall i a, blks !! i = Some a ->
            NoDup a /\ forall x, x ∈ a -> Filename x = Filename h /\ BlockNum x = i)
    by (intros i a Hi; exact (Hok _ _ _ _ Hfm Hi)).
  destruct (blks !! BlockNum h) as [arr|] eqn:Harr.
  - destruct (ContainsHeader arr h) eqn:Hc; [exact Hok|].
    destruct (Hblks _ _ Harr) as [Hnd Hnames].
    apply index_ok_insert; auto.
    + apply NoDup_app. split; [exact Hnd|]. split; [|apply NoDup_singleton].
      intros x Hx Hx'. apply list_elem_of_singleton in Hx'. subst x.
      apply ContainsHeader_spec_fact in Hx. congruence.
    + intros x Hx. apply elem_of_app in Hx. destruct Hx as [Hx|Hx]; auto using one_header_ok.
  - apply index_ok_insert; auto using one_header_ok. apply NoDup_singleton.
Qed.

Lemma MergeNode_keeps_index_ok_fact (h : BlockHeader) (s : State Packet) :
  index_ok (filemap s) -> index_ok (filemap (snd (MergeNode h s))).
Proof.
  apply (MergeNode_keeps (fun s => index_ok (filemap s))). intros path_arr q i s0 Hok [dn Hdn].
  destruct (merge_at_shapes h path_arr q i s0 dn Hdn) as [-> | [Hc | Hp]];
    eauto using created_index_ok, placed_index_ok.
Qed.

(** X8. [MergeNode] keeps the index well formed, however it ends: every header
    stored under a path and block number carries that path and number, and
    no slot holds a header twice. *)
Theorem MergeNode_keeps_index_ok (h : BlockHeader) (s : State Packet) :
  index_ok (filemap s) -> index_ok (filemap (snd (MergeNode h s))).
Proof. exact (MergeNode_keeps_index_ok_fact h s). Qed.
End IndexInvariant.

(** ** [MergeNode]: below the top level *)

Section BelowTopLevel.
Import V1 Run1.

Lemma find_child_on_root {P} (cs : list (option ptr)) (partial : string) (s : State P) (r : ptr) :
  (forall c, c ∈ cs -> exists v, c = Some v /\ v <> r /\ v < length (nodes s)) ->
  fst (find_child cs partial s) = Returned None
  \/ exists v, v <> r /\ v < length (nodes s)
       /\ fst (find_child cs partial s) = Returned (Some v).
Proof.
  induction cs as [|c cs IH]; intros Hall; [left; reflexivity|].
  destruct (Hall c) as (v & -> & Hv & Hlt); [left|].
  destruct (lookup_lt_is_Some_2 _ _ Hlt) as [nd Hnd].
  cbn [find_child]. merge_step. rewrite Hnd. merge_step.
  destruct (String.eqb (path nd) partial); merge_step.
  - right. exists v. auto.
  - apply IH. intros c Hc. apply Hall. right. exact Hc.
Qed.

Lemma not_own_extension (a rest : string) (c : ascii) : a <> a +:+ String c rest.
Proof.
  induction a as [|x a IH]; [discriminate|].
  change (String x a +:+ String c rest) with (String x (a +:+ String c rest)).
  intros [= H]. exact (IH H).
Qed.

Lemma MergeNode_below_the_top_level_run (h : BlockHeader) (s : State Packet)
    (dn : datanode) (a rest : string) :
  tree_ok s ->
  invalid_header h = false -> datanodemap s !! DatanodeID h = Some dn ->
  Filename h = String slash (a +:+ String slash rest) -> has_byte slash a = false ->
  exists s', MergeNode h s = (Panicked nil_deref, s')
    /\ filemap s' = filemap s /\ datanodemap s' = datanodemap s.
Proof.
  intros (Hroot & Hnil & Hkids) Hv Hdn Hname Hrel.
  destruct (lookup_lt_is_Some_2 _ _ Hroot) as [rt Hrt].
  assert (Hne : String slash a <> Filename h).
  { rewrite Hname. intros [= H]. exact (not_own_extension _ _ _ H). }
  unfold MergeNode. rewrite Hv. unfold bind at 1, gets at 1. rewrite Hdn, Hname.
  cbn [Split]. rewrite Ascii.eqb_refl, (Split_prefix _ _ _ Hrel).
  destruct (Split rest slash) as [|x xs] eqn:Hs; [destruct (Split_nonempty _ _ Hs)|].
  cbn [length seq walk_from]. unfold bind at 1, gets at 1.
  unfold bind at 1. unfold merge_at at 1. cbn [Nat.eqb]. unfold ret at 1.
  unfold bind at 1.
  destruct (find_child_on_root (children rt) (String slash a) s (root s) (Hkids rt Hrt))
    as [Hnone | (v & Hvr & Hlt & Hfound)].
  - rewrite (merge_at_creates_directory h _ (root s) 1 s rt (String slash a)); auto.
    unfold bind at 1.
    match goal with |- context [merge_at h ?pa ?q 2 ?s1] =>
      rewrite (merge_at_nil_child h pa q 2 s1
                 (mkFilenode (String slash a) (Some (root s)) [None]) [])
    end; [eexists; split; [reflexivity | cbn; auto] | lia | | reflexivity].
    cbn [nodes]. rewrite list_lookup_insert_ne by lia. apply list_lookup_middle. reflexivity.
  - rewrite (merge_at_descends h _ (root s) 1 v s rt (String slash a)); auto.
    unfold bind at 1.
    destruct (lookup_lt_is_Some_2 _ _ Hlt) as [ndv Hndv].
    destruct (Hnil v ndv Hndv Hvr) as [rest' Hrest'].
    rewrite (merge_at_nil_child h _ v 2 s ndv rest');
      [eexists; split; [reflexivity | auto] | lia | exact Hndv | exact Hrest'].
Qed.

Lemma MergeNode_panics_below_the_top_level (h : BlockHeader) (s : State Packet)
    (dn : datanode) (a rest : string) :
  tree_ok s ->
  invalid_header h = false -> datanodemap s !! DatanodeID h = Some dn ->
  Filename h = String slash (a +:+ String slash rest) -> has_byte slash a = false ->
  fst (MergeNode h s) = Panicked nil_deref
  /\ filemap (snd (MergeNode h s)) = filemap s
  /\ datanodemap (snd (MergeNode h s)) = datanodemap s.
Proof.
  intros Hok Hv Hdn Hname Hrel.
  destruct (MergeNode_below_the_top_level_run h s dn a rest Hok Hv Hdn Hname Hrel)
    as (s' & -> & Hfm & Hdm). auto.
Qed.
End BelowTopLevel.

(** ** Frames of monadic programs *)

Section Keeping.
Context {S : Type} (R : S -> S -> Prop).
Hypothesis R_refl : forall s, R s s.
Hypothesis R_trans : forall a b c, R a b -> R b c -> R a c.

Lemma keeps_ret {A} (a : A) : keeps R (ret a).
Proof. intros s. apply R_refl. Qed.

Lemma keeps_panic {A} (r : string) : keeps R (@panic S A r).
Proof. intros s. apply R_refl. Qed.

Lemma keeps_gets {A} (f : S -> A) : keeps R (gets f).
Proof. intros s. apply R_refl. Qed.

Lemma keeps_index {A} (arr : list A) (i : nat) : keeps R (@index S A arr i).
Proof. intros s. unfold index. destruct (arr !! i); apply R_refl. Qed.

Lemma keeps_modify (f : S -> S) : (forall s, R s (f s)) -> keeps R (modify f).
Proof. intros H s. apply H. Qed.

Lemma keeps_bind {A B} (m : Go S A) (k : A -> Go S B) :
  keeps R m -> (forall a, keeps R (k a)) -> keeps R (bind m k).
Proof.
  intros Hm Hk s. unfold bind. pose proof (Hm s) as H1.
  destruct (m s) as [[a|r] s1]; cbn in *; [|exact H1].
  eapply R_trans; [exact H1 | apply Hk].
Qed.

Lemma keeps_recovering (body handler : Go S unit) :
  keeps R body -> keeps R handler -> keeps R (recovering body handler).
Proof.
  intros Hb Hh s. unfold recovering. pose proof (Hb s) as H1.
  destruct (body s) as [[[]|r] s1]; cbn in *; [exact H1|].
  eapply R_trans; [exact H1 | apply Hh].
Qed.

Lemma keeps_for_each {A} (l : list A) (body : A -> Go S unit) :
  (forall a, keeps R (body a)) -> keeps R (for_each l body).
Proof.
  intros Hb. induction l as [|a l IH]; cbn [for_each]; [apply keeps_ret|].
  apply keeps_bind; auto.
Qed.

Lemma keeps_bind_yields {A B} (Q : A -> Prop) (m : Go S A) (k : A -> Go S B) :
  keeps R m -> yields Q m -> (forall a, Q a -> keeps R (k a)) -> keeps R (bind m k).
Proof.
  intros Hm HQ Hk s. unfold bind. pose proof (Hm s) as H1. pose proof (HQ s) as H2.
  destruct (m s) as [[a|r] s1]; cbn in *; [|exact H1].
  eapply R_trans; [exact H1 | apply Hk, H2; reflexivity].
Qed.
End Keeping.

(** ** Returned values *)

Section Yielding.
Context {S : Type}.

Lemma yields_ret {A} (Q : A -> Prop) (a : A) : Q a -> yields Q (@ret S A a).
Proof. intros H s a' [= <-]. exact H. Qed.

Lemma yields_panic {A} (Q : A -> Prop) (r : string) : yields Q (@panic S A r).
Proof. intros s a H. discriminate. Qed.

Lemma yields_bind {A B} (Q : B -> Prop) (m : Go S A) (k : A -> Go S B) :
  (forall a, yields Q (k a)) -> yields Q (bind m k).
Proof.
  intros Hk s b. unfold bind. destruct (m s) as [[a|r] s1]; [apply Hk | discriminate].
Qed.
End Yielding.

(** ** The frame of [HandlePacket] *)

Section DispatchFrame.
Import V1 Run1.

Lemma dispatch_frame_refl (s : State Packet) : dispatch_frame s s.
Proof.
  unfold dispatch_frame. repeat split; eauto.
  - exists []. rewrite app_nil_r. auto.
  - exists []. rewrite app_nil_r. auto.
Qed.

Lemma dispatch_frame_trans (a b c : State Packet) :
  dispatch_frame a b -> dispatch_frame b c -> dispatch_frame a c.
Proof.
  intros (Hr & Hn & Hf & Hsm & Hd & Hnone & Hc & (l1 & Hs1 & Hl1) & (k1 & Hk1))
         (Hr' & Hn' & Hf' & Hsm' & Hd' & Hnone' & Hc' & (l2 & Hs2 & Hl2) & (k2 & Hk2)).
  unfold dispatch_frame. repeat split; try congruence.
  - intros k dn Hk. destruct (Hd k dn Hk) as (dn1 & H1 & Hid1 & Hsz1 & Hl).
    destruct (Hd' k dn1 H1) as (dn2 & H2 & Hid2 & Hsz2 & Hl').
    exists dn2. repeat split; auto; congruence.
  - auto.
  - intros h x Hh. destruct (Hc h x Hh) as [y Hy]. eauto.
  - exists (l1 ++ l2). rewrite Hs2, Hs1, app_assoc. split; [reflexivity|].
    apply Forall_app. auto.
  - exists (k1 ++ k2). rewrite Hk2, Hk1, app_assoc. reflexivity.
Qed.

Lemma frame_println (line : string) : keeps dispatch_frame (println line).
Proof.
  intros s. cbn. unfold dispatch_frame. cbn. repeat split; eauto.
  - exists []. rewrite app_nil_r. auto.
  - exists []. rewrite app_nil_r. auto.
Qed.

Lemma frame_enqueue (h : BlockHeader) : keeps dispatch_frame (enqueue h).
Proof.
  intros s. cbn. unfold dispatch_frame. cbn. repeat split; eauto.
  exists []. rewrite app_nil_r. auto.
Qed.

Lemma frame_send (r : Packet) : SRC r = "NN" -> keeps dispatch_frame (send r).
Proof.
  intros Hr s. cbn. unfold dispatch_frame. cbn. repeat split; eauto.
  exists []. rewrite app_nil_r. auto.
Qed.

Lemma frame_record_client (h : BlockHeader) (c : string) :
  keeps dispatch_frame (modify (set_clientMap (fun cm => <[h := c]> cm))).
Proof.
  intros s. cbn. unfold dispatch_frame. cbn. repeat split; eauto.
  - intros h' c' Hh. destruct (decide (h = h')) as [->|Hne].
    + rewrite lookup_insert_eq. eauto.
    + rewrite lookup_insert_ne by exact Hne. eauto.
  - exists []. rewrite app_nil_r. auto.
  - exists []. rewrite app_nil_r. auto.
Qed.

Lemma frame_mark_listed (k : string) : keeps dispatch_frame (mark_listed k).
Proof.
  intros s. cbn. unfold dispatch_frame. cbn. repeat split; eauto.
  - intros k' dn Hk. destruct (decide (k = k')) as [->|Hne].
    + rewrite lookup_alter_eq, Hk. cbn. eexists. repeat split; auto.
    + rewrite lookup_alter_ne by exact Hne. eauto.
  - intros k' Hk. destruct (decide (k = k')) as [->|Hne].
    + rewrite lookup_alter_eq, Hk. reflexivity.
    + rewrite lookup_alter_ne by exact Hne. exact Hk.
  - exists []. rewrite app_nil_r. auto.
  - exists []. rewrite app_nil_r. auto.
Qed.

Lemma frame_first_headers (line : option string) (blockMap : gmap Z (list BlockHeader))
    (idxs : list nat) :
  keeps dispatch_frame (first_headers line blockMap idxs).
Proof.
  induction idxs as [|i idxs IH]; cbn [first_headers].
  - apply keeps_ret, dispatch_frame_refl.
  - repeat (apply (keeps_bind _ dispatch_frame_trans); [|intros]);
      try apply (keeps_ret _ dispatch_frame_refl);
      try apply (keeps_index _ dispatch_frame_refl); try exact IH.
    destruct line; [apply frame_println | apply (keeps_ret _ dispatch_frame_refl)].
Qed.

Ltac frame :=
  repeat first
    [ apply (keeps_ret _ dispatch_frame_refl)
    | apply (keeps_panic _ dispatch_frame_refl)
    | apply (keeps_gets _ dispatch_frame_refl)
    | apply (keeps_index _ dispatch_frame_refl)
    | apply frame_println
    | apply frame_enqueue
    | apply frame_record_client
    | apply frame_mark_listed
    | apply frame_first_headers
    | apply frame_send; reflexivity
    | apply (keeps_for_each _ dispatch_frame_refl dispatch_frame_trans); intros
    | apply (keeps_recovering _ dispatch_frame_trans)
    | apply (keeps_bind _ dispatch_frame_trans); [|intros]
    | match goal with
      | |- keeps _ (if ?b then _ else _) => destruct b
      | |- keeps _ (match ?x with _ => _ end) => destruct x
      end ].

Lemma frame_DistributeBlock (rnd : nat) (b : Block) :
  keeps dispatch_frame (DistributeBlock rnd b).
Proof. unfold DistributeBlock. frame. Qed.

Ltac from_namenode :=
  repeat first
    [ apply yields_panic
    | apply yields_ret; intros ? [= <-]; reflexivity
    | apply yields_ret; intros ? [=]
    | apply yields_bind; intros
    | match goal with
      | |- yields _ (if ?b then _ else _) => destruct b
      | |- yields _ (match ?x with _ => _ end) => destruct x
      end ].

Lemma client_switch_reply (rnd : nat) (p r : Packet) :
  SRC r = "NN" ->
  yields (fun o => forall r', o = Some r' -> SRC r' = "NN") (client_switch rnd p r).
Proof. intros Hr. destruct r. cbn in Hr. subst. unfold client_switch. cbv zeta. from_namenode. Qed.

Lemma datanode_switch_reply (p r : Packet) :
  SRC r = "NN" ->
  yields (fun o => forall r', o = Some r' -> SRC r' = "NN") (datanode_switch p r).
Proof. intros Hr. destruct r. cbn in Hr. subst. unfold datanode_switch. cbv zeta. from_namenode. Qed.

Lemma frame_client_switch (rnd : nat) (p r : Packet) :
  keeps dispatch_frame (client_switch rnd p r).
Proof. unfold client_switch. cbv zeta. frame; apply frame_DistributeBlock. Qed.

Lemma frame_datanode_switch (p r : Packet) : keeps dispatch_frame (datanode_switch p r).
Proof. unfold datanode_switch. cbv zeta. frame. Qed.

Lemma frame_HandlePacket (rnd : nat) (p : Packet) :
  keeps dispatch_frame (HandlePacket rnd p).
Proof.
  unfold HandlePacket. cbv zeta.
  apply (keeps_recovering _ dispatch_frame_trans); [|frame].
  destruct (String.eqb (SRC p) ""); [frame|].
  apply (keeps_bind_yields _ dispatch_frame_trans
           (fun o => forall r', o = Some r' -> SRC r' = "NN")).
  - destruct (String.eqb (SRC p) "C");
      [apply frame_client_switch | apply frame_datanode_switch].
  - destruct (String.eqb (SRC p) "C");
      [apply client_switch_reply | apply datanode_switch_reply]; reflexivity.
  - intros [r|] Hr; [|frame].
    apply (keeps_bind _ dispatch_frame_trans); [frame | intros].
    apply frame_send. apply Hr. reflexivity.
Qed.
End DispatchFrame.

(** ** What [HandlePacket] never does *)

Section DispatchNever.
Import V1 Run1.

Lemma HandlePacket_leaves_the_namespace_fact (rnd : nat) (p : Packet) (s : State Packet) :
  let s' := snd (HandlePacket rnd p s) in
  root s' = root s /\ nodes s' = nodes s /\ filemap s' = filemap s /\ sendMap s' = sendMap s.
Proof.
  destruct (frame_HandlePacket rnd p s) as (Hr & Hn & Hf & Hsm & _). cbv zeta. auto.
Qed.

(** X19. No packet makes [HandlePacket] change the tree, the index or the send
    map: headers reach the index only through [headerChannel] and
    [HandleBlockHeaders]. *)
Theorem HandlePacket_leaves_the_namespace (rnd : nat) (p : Packet) (s : State Packet) :
  let s' := snd (HandlePacket rnd p s) in
  root s' = root s /\ nodes s' = nodes s /\ filemap s' = filemap s /\ sendMap s' = sendMap s.
Proof. exact (HandlePacket_leaves_the_namespace_fact rnd p s). Qed.

Lemma HandlePacket_keeps_the_datanode_records_fact (rnd : nat) (p : Packet) (s : State Packet)
    (k : string) :
  match datanodemap s !! k with
  | None => datanodemap (snd (HandlePacket rnd p s)) !! k = None
  | Some dn =>
      exists dn', datanodemap (snd (HandlePacket rnd p s)) !! k = Some dn'
        /\ ID dn' = ID dn /\ size dn' = size dn /\ (listed dn = true -> listed dn' = true)
  end.
Proof.
  destruct (frame_HandlePacket rnd p s) as (_ & _ & _ & _ & Hd & Hnone & _).
  destruct (datanodemap s !! k) as [dn|] eqn:Hk; auto.
Qed.

(** X20. [HandlePacket] creates and removes no datanode record and changes no
    ID or size; the only change it makes to a record is setting [listed]. *)
Theorem HandlePacket_keeps_the_datanode_records (rnd : nat) (p : Packet) (s : State Packet)
    (k : string) :
  match datanodemap s !! k with
  | None => datanodemap (snd (HandlePacket rnd p s)) !! k = None
  | Some dn =>
      exists dn', datanodemap (snd (HandlePacket rnd p s)) !! k = Some dn'
        /\ ID dn' = ID dn /\ size dn' = size dn /\ (listed dn = true -> listed dn' = true)
  end.
Proof. exact (HandlePacket_keeps_the_datanode_records_fact rnd p s k). Qed.

(** X21. [HandlePacket] only appends to [sendChannel], and every packet it
    appends has source [NN]. *)
Theorem HandlePacket_sends_as_the_namenode (rnd : nat) (p : Packet) (s : State Packet) :
  exists l, sendChannel (snd (HandlePacket rnd p s)) = sendChannel s ++ l
    /\ Forall (fun r => SRC r = "NN") l.
Proof. destruct (frame_HandlePacket rnd p s) as (_ & _ & _ & _ & _ & _ & _ & H & _). exact H. Qed.

(** X22. [HandlePacket] never removes an entry of [clientMap]: a header
    recorded by [RETRIEVEBLOCK] stays recorded, also when the block has
    been passed on. *)
Theorem HandlePacket_never_drops_a_pending_request (rnd : nat) (p : Packet) (s : State Packet) :
  dom (clientMap s) ⊆ dom (clientMap (snd (HandlePacket rnd p s))).
Proof.
  destruct (frame_HandlePacket rnd p s) as (_ & _ & _ & _ & _ & _ & Hc & _).
  intros h Hh. apply elem_of_dom in Hh. destruct Hh as [c Hc']. apply elem_of_dom. eauto.
Qed.
End DispatchNever.

(** ** Reachable states *)

Section Reachable.
Import V1 Run1.

Lemma CheckConnection_prelude (rnd conn : nat) (p : Packet) (s : State Packet) :
  exists s1, CheckConnection rnd conn p s = HandlePacket rnd p s1
    /\ root s1 = root s /\ nodes s1 = nodes s /\ filemap s1 = filemap s
    /\ (datanodemap s1 = datanodemap s
        \/ (datanodemap s !! SRC p = None
            /\ datanodemap s1 = <[SRC p := mkDatanode (SRC p) false 0]> (datanodemap s))).
Proof.
  unfold CheckConnection, bind, gets, println, modify. cbn -[HandlePacket].
  destruct (String.eqb (SRC p) "C"); cbn -[HandlePacket].
  - eexists. split; [reflexivity|]. cbn. auto.
  - destruct (datanodemap s !! SRC p) eqn:Hk; cbn -[HandlePacket];
      (eexists; split; [reflexivity|]); cbn; auto 10.
Qed.

Lemma records_ok_insert (dm : gmap string datanode) (k : string) (dn : datanode) :
  records_ok dm -> ID dn = k -> records_ok (<[k := dn]> dm).
Proof.
  intros Hok Hid k' dn' Hk. apply lookup_insert_Some in Hk.
  destruct Hk as [[<- <-] | [_ Hk]]; [exact Hid | exact (Hok _ _ Hk)].
Qed.

Lemma MergeNode_keeps_records_ok (h : BlockHeader) (s : State Packet) :
  records_ok (datanodemap s) -> records_ok (datanodemap (snd (MergeNode h s))).
Proof.
  apply (MergeNode_keeps (fun s => records_ok (datanodemap s))).
  intros path_arr q i s0 Hok [dn Hdn].
  destruct (merge_at_shapes h path_arr q i s0 dn Hdn)
    as [-> | [(nd & dn' & _ & _ & Hdn' & ->) | (blks & dn' & _ & Hdn' & ->)]]; auto; cbn.
  - destruct (String.eqb _ _); [|exact Hok].
    apply records_ok_insert; [exact Hok | exact (Hok _ _ Hdn')].
  - apply records_ok_insert; [exact Hok | exact (Hok _ _ Hdn')].
Qed.

Lemma HandlePacket_keeps_records_ok (rnd : nat) (p : Packet) (s : State Packet) :
  records_ok (datanodemap s) -> records_ok (datanodemap (snd (HandlePacket rnd p s))).
Proof.
  intros Hok k dn' Hk.
  pose proof (HandlePacket_keeps_the_datanode_records_fact rnd p s k) as H.
  destruct (datanodemap s !! k) as [dn|] eqn:Hk0; [|congruence].
  destruct H as (dn'' & Hk' & Hid & _). rewrite Hk in Hk'. injection Hk' as <-.
  rewrite Hid. exact (Hok _ _ Hk0).
Qed.

Lemma reachable_states_are_well_formed_fact (s : State Packet) :
  reachable s -> tree_ok s /\ index_ok (filemap s) /\ records_ok (datanodemap s).
Proof.
  induction 1 as [|h s _ (Ht & Hi & Hr)|rnd p s _ (Ht & Hi & Hr)|rnd conn p s _ (Ht & Hi & Hr)].
  - split; [apply tree_ok_Init|]. split.
    + intros p blks i arr Hp. cbn in Hp. rewrite lookup_empty in Hp. discriminate.
    + intros k dn Hk. cbn in Hk. rewrite lookup_empty in Hk. discriminate.
  - auto using MergeNode_keeps_tree_ok, MergeNode_keeps_index_ok_fact, MergeNode_keeps_records_ok.
  - destruct (HandlePacket_leaves_the_namespace_fact rnd p s) as (Hroot & Hn & Hf & _).
    split; [exact (tree_ok_same_tree s _ Hroot Hn Ht)|]. split.
    + rewrite Hf. exact Hi.
    + apply HandlePacket_keeps_records_ok, Hr.
  - destruct (CheckConnection_prelude rnd conn p s) as (s1 & -> & Hroot1 & Hn1 & Hf1 & Hd1).
    destruct (HandlePacket_leaves_the_namespace_fact rnd p s1) as (Hroot & Hn & Hf & _).
    split; [apply (tree_ok_same_tree s); congruence|]. split.
    + rewrite Hf, Hf1. exact Hi.
    + apply HandlePacket_keeps_records_ok.
      destruct Hd1 as [-> | [_ ->]]; [exact Hr | apply records_ok_insert; auto].
Qed.

(** X9. Every state reached from [Init] by calls of [MergeNode],
    [HandlePacket] and [CheckConnection] is well formed: the root is
    allocated, every node but the root has a nil first child, the index is
    well formed and every datanode record is stored under its own ID. *)
Theorem reachable_states_are_well_formed (s : State Packet) :
  reachable s -> tree_ok s /\ index_ok (filemap s) /\ records_ok (datanodemap s).
Proof. exact (reachable_states_are_well_formed_fact s). Qed.
End Reachable.

(** ** Consequences for reachable states *)

Section ReachableConsequences.
Import V1 Run1.

(** X10. In every reachable state a valid header of a registered datanode for
    a name with two or more segments makes [MergeNode] panic on the nil
    child of the first-level node; neither the index nor the datanode
    records change. *)
Theorem no_file_below_the_top_level_is_ever_merged (h : BlockHeader) (s : State Packet)
    (dn : datanode) (a rest : string) :
  reachable s ->
  invalid_header h = false -> datanodemap s !! DatanodeID h = Some dn ->
  Filename h = String slash (a +:+ String slash rest) -> has_byte slash a = false ->
  fst (MergeNode h s) = Panicked nil_deref
  /\ filemap (snd (MergeNode h s)) = filemap s
  /\ datanodemap (snd (MergeNode h s)) = datanodemap s.
Proof.
  intros Hreach. apply MergeNode_panics_below_the_top_level.
  apply reachable_states_are_well_formed_fact, Hreach.
Qed.

(** X18. In every reachable state with a datanode registered, whatever number
    is drawn, [DistributeBlock] sends one [BLOCK] packet whose destination
    has a record in [datanodemap], whose header names that destination,
    and whose bytes are those of the block. *)
Theorem DistributeBlock_addresses_a_registered_datanode (rnd : nat) (b : Block)
    (s : State Packet) :
  reachable s -> datanodemap s <> ∅ ->
  exists r, sendChannel (snd (DistributeBlock rnd b s)) = sendChannel s ++ [r]
    /\ CMD r = BLOCK /\ is_Some (datanodemap s !! DST r)
    /\ DatanodeID (Header (Data r)) = DST r /\ Bytes (Data r) = Bytes b.
Proof.
  intros Hreach Hne.
  destruct (reachable_states_are_well_formed_fact s Hreach) as (_ & _ & Hrec).
  destruct (DistributeBlock_sends_one_block rnd b s Hne) as (k & dn & Hk & _ & Hsent & _).
  exists (block_for dn b). split; [exact Hsent|]. cbn.
  rewrite (Hrec _ _ Hk). eauto.
Qed.
(** X30. [HandleBlockHeaders] drops the error of a rejected header and goes
    on, but the first valid header for a name with two or more segments
    ends it with the panic of [MergeNode]: nothing recovers, the headers
    queued after it are never merged, and the index and the datanode
    records are as they were. *)
Theorem HandleBlockHeaders_ends_at_a_nested_header (pre rest : list BlockHeader)
    (h : BlockHeader) (s : State Packet) (dn : datanode) (a b : string) :
  reachable s ->
  Forall (fun x => invalid_header x = true \/ datanodemap s !! DatanodeID x = None) pre ->
  invalid_header h = false -> datanodemap s !! DatanodeID h = Some dn ->
  Filename h = String slash (a +:+ String slash b) -> has_byte slash a = false ->
  fst (HandleBlockHeaders (pre ++ h :: rest) s) = Panicked nil_deref
  /\ filemap (snd (HandleBlockHeaders (pre ++ h :: rest) s)) = filemap s
  /\ datanodemap (snd (HandleBlockHeaders (pre ++ h :: rest) s)) = datanodemap s.
Proof.
  intros Hreach Hpre Hv Hdn Hname Hrel.
  assert (tree_ok s) as Hok by apply reachable_states_are_well_formed_fact, Hreach.
  unfold HandleBlockHeaders.
  induction Hpre as [|x pre Hx _ IH]; cbn [app for_each].
  - destruct (MergeNode_below_the_top_level_run h s dn a b Hok Hv Hdn Hname Hrel)
      as (s' & E & Hfm & Hdm).
    assert (forall k : unit -> Go (State Packet) unit,
               bind (bind (MergeNode h) (fun _ => ret tt)) k s = (Panicked nil_deref, s'))
      as Hstop by (intros k; unfold bind; rewrite E; reflexivity).
    rewrite Hstop. cbn. auto.
  - destruct (MergeNode_rejection_changes_nothing_fact x s Hx) as [e E].
    assert (forall k : unit -> Go (State Packet) unit,
               bind (bind (MergeNode x) (fun _ => ret tt)) k s = k tt s) as Hskip
      by (intros k; unfold bind, ret; rewrite E; reflexivity).
    rewrite Hskip. exact IH.
Qed.
End ReachableConsequences.

(** ** The second copy: least-loaded placement *)

Section LeastLoaded.
Import V2.

Lemma insert_by_size_elem (dn x : datanode) (l : list datanode) :
  x ∈ insert_by_size dn l <-> x = dn \/ x ∈ l.
Proof.
  induction l as [|y l IH]; cbn.
  - rewrite list_elem_of_singleton, elem_of_nil. tauto.
  - destruct ((size y <? size dn)%Z || (size y =? size dn)%Z).
    + rewrite !elem_of_cons, IH. tauto.
    + rewrite !elem_of_cons. tauto.
Qed.

Lemma sort_by_size_elem (x : datanode) (l : list datanode) :
  x ∈ sort_by_size l <-> x ∈ l.
Proof.
  unfold sort_by_size. transitivity (x ∈ reverse l); [|apply elem_of_reverse].
  induction (reverse l) as [|y k IH]; cbn; [reflexivity|].
  rewrite insert_by_size_elem, elem_of_cons, IH. reflexivity.
Qed.

Lemma insert_by_size_least (dn : datanode) (l : list datanode) :
  least_first l -> least_first (insert_by_size dn l).
Proof.
  destruct l as [|x l]; cbn.
  - intros _ y Hy. apply list_elem_of_singleton in Hy. subst y. lia.
  - intros Hx. destruct (Z.ltb_spec (size x) (size dn)); cbn.
    + intros y Hy. apply elem_of_cons in Hy. destruct Hy as [-> | Hy]; [lia|].
      apply insert_by_size_elem in Hy. destruct Hy as [-> | Hy]; [lia|].
      apply Hx. right. exact Hy.
    + destruct (Z.eqb_spec (size x) (size dn)); cbn.
      * intros y Hy. apply elem_of_cons in Hy. destruct Hy as [-> | Hy]; [lia|].
        apply insert_by_size_elem in Hy. destruct Hy as [-> | Hy]; [lia|].
        apply Hx. right. exact Hy.
      * intros y Hy. apply elem_of_cons in Hy. destruct Hy as [-> | Hy]; [lia|].
        specialize (Hx y Hy). lia.
Qed.

Lemma sort_by_size_least (l : list datanode) : least_first (sort_by_size l).
Proof.
  unfold sort_by_size. induction (reverse l) as [|y k IH]; cbn; [exact I|].
  apply insert_by_size_least, IH.
Qed.

(** X27. Second copy: with a datanode registered and every record stored under
    its ID, [DistributeBlock] picks a record of least size, sends it the
    block with the header rewritten, and adds the block's size to that
    record at once, before any acknowledgement. *)
Theorem V2_DistributeBlock_charges_the_least_loaded (b : Block) (s : State Packet) :
  datanodemap s <> ∅ -> records_ok (datanodemap s) ->
  exists k dn,
    datanodemap s !! k = Some dn
    /\ (forall k' dn', datanodemap s !! k' = Some dn' -> (size dn <= size dn')%Z)
    /\ fst (DistributeBlock b s) = Returned tt
    /\ sendChannel (snd (DistributeBlock b s))
       = sendChannel s
         ++ [mkPacket "NN" k BLOCK
               (mkBlock (mkBlockHeader k (Filename (Header b)) (Size (Header b))
                           (BlockNum (Header b)) (NumBlocks (Header b)))
                        (Bytes b)) []]
    /\ datanodemap (snd (DistributeBlock b s))
       = <[k := mkDatanode (ID dn) (listed dn) (wrap64 (size dn + Size (Header b)))]>
           (datanodemap s)
    /\ (root (snd (DistributeBlock b s)), nodes (snd (DistributeBlock b s)),
        filemap (snd (DistributeBlock b s)))
       = (root s, nodes s, filemap s).
Proof.
  intros Hne Hrec.
  pose proof (sort_by_size_least (snd <$> map_to_list (datanodemap s))) as Hleast.
  destruct (sort_by_size (snd <$> map_to_list (datanodemap s))) as [|dn rest] eqn:Hsort.
  { exfalso. apply map_size_non_empty_iff in Hne.
    destruct (map_to_list (datanodemap s)) as [|[k dn] l] eqn:Hl.
    - apply (f_equal length) in Hl. rewrite length_map_to_list in Hl. cbn in Hl. lia.
    - assert (Hin : dn ∈ sort_by_size (snd <$> (k, dn) :: l))
        by (apply sort_by_size_elem; left).
      rewrite Hsort in Hin. inversion Hin. }
  assert (Hin : dn ∈ snd <$> map_to_list (datanodemap s)).
  { apply sort_by_size_elem. rewrite Hsort. left. }
  apply list_elem_of_fmap in Hin. destruct Hin as ([k dn0] & Heq & Hin). cbn in Heq. subst dn0.
  apply elem_of_map_to_list in Hin.
  exists k, dn. split; [exact Hin|]. split.
  { intros k' dn' Hk'. apply Hleast. rewrite <- Hsort. apply sort_by_size_elem.
    apply list_elem_of_fmap. exists (k', dn'). split; [reflexivity|].
    apply elem_of_map_to_list. exact Hk'. }
  pose proof (Hrec _ _ Hin) as Hid.
  unfold DistributeBlock, recovering, bind, gets, index, add_size, modify, send.
  cbn -[sort_by_size lookup insert].
  destruct (Nat.leb_spec (base.size (datanodemap s)) 0) as [Hle|_].
  { apply map_size_non_empty_iff in Hne. lia. }
  rewrite Hsort. change ((dn :: rest) !! 0%nat) with (Some dn).
  unfold ret, set_datanodemap. cbn -[lookup insert]. rewrite Hid, Hin.
  cbn -[lookup insert]. rewrite ?Hid. auto.
Qed.
End LeastLoaded.

(** ** [SendPackets] *)

Section SenderFacts.
Import V1 Sender.

(** X28. Started with the lock free on packets whose destinations all have an
    encoder, [SendPackets] writes each packet to the encoder of its
    destination in queue order (a failing encode is reported and skipped),
    releases the lock, and waits for more. *)
Theorem SendPackets_delivers_in_order (sm : gmap string nat) (fails : nat -> Packet -> bool)
    (ps : list Packet) (w : Wire) :
  locked w = false -> Forall (fun p => is_Some (sm !! DST p)) ps ->
  fst (SendPackets sm fails ps w) = Waiting
  /\ locked (snd (SendPackets sm fails ps w)) = false
  /\ written (snd (SendPackets sm fails ps w)) = written w ++ omap (delivery sm fails) ps.
Proof.
  intros Hl Hall. revert w Hl. induction Hall as [|p ps [conn Hp] _ IH]; intros w Hl.
  - cbn. rewrite app_nil_r. auto.
  - cbn [SendPackets]. rewrite Hl, Hp. cbn [locked written printed].
    cbn [omap list_omap]. unfold delivery at 1. rewrite Hp.
    destruct (fails conn p); cbn [written printed].
    + apply (IH (mkWire false (written w) _)). reflexivity.
    + destruct (IH (mkWire false (written w ++ [(conn, p)]) (printed w)) eq_refl)
        as (H1 & H2 & H3).
      rewrite H1, H2, H3. cbn. rewrite <- app_assoc. auto.
Qed.

Lemma SendPackets_held (sm : gmap string nat) (fails : nat -> Packet -> bool)
    (ps : list Packet) (w : Wire) :
  locked w = true ->
  SendPackets sm fails ps w = (match ps with [] => Waiting | _ => Blocked end, w).
Proof. intros Hl. destruct ps; cbn; [|rewrite Hl]; reflexivity. Qed.

(** X29. The first packet whose destination has no encoder makes [SendPackets]
    [continue] with the lock held: nothing after it is written, and with
    another packet queued the loop blocks on its own lock. *)
Theorem SendPackets_stops_at_an_unknown_destination (sm : gmap string nat)
    (fails : nat -> Packet -> bool) (pre rest : list Packet) (p : Packet) (w : Wire) :
  locked w = false -> Forall (fun p => is_Some (sm !! DST p)) pre ->
  sm !! DST p = None ->
  fst (SendPackets sm fails (pre ++ p :: rest) w)
  = match rest with [] => Waiting | _ => Blocked end
  /\ locked (snd (SendPackets sm fails (pre ++ p :: rest) w)) = true
  /\ written (snd (SendPackets sm fails (pre ++ p :: rest) w))
     = written w ++ omap (delivery sm fails) pre.
Proof.
  intros Hl Hall Hp. revert w Hl. induction Hall as [|q pre [conn Hq] _ IH]; intros w Hl.
  - cbn [app SendPackets]. rewrite Hl, Hp. cbn [locked written printed].
    rewrite SendPackets_held by reflexivity. cbn. rewrite app_nil_r. auto.
  - cbn [app SendPackets]. rewrite Hl, Hq. cbn [locked written printed].
    cbn [omap list_omap]. unfold delivery at 1. rewrite Hq.
    destruct (fails conn q); cbn [written printed].
    + apply (IH (mkWire false (written w) _)). reflexivity.
    + destruct (IH (mkWire false (written w ++ [(conn, q)]) (printed w)) eq_refl)
        as (H1 & H2 & H3).
      rewrite H1, H2, H3. cbn. rewrite <- app_assoc. auto.
Qed.
End SenderFacts.

(** ** Instances *)

Section Instances.
Import V1 Run1 Cases.

Lemma MergeNode_rejection_changes_nothing_witness :
  exists e, MergeNode h_unknown booted = (Returned (Some e), booted).
Proof.
  apply (MergeNode_rejection_changes_nothing h_unknown booted).
  right. vm_compute. reflexivity.
Defined.

Lemma MergeNode_relative_name_ignored_witness :
  MergeNode h_rel booted = (Returned None, booted).
Proof.
  apply (MergeNode_relative_name_ignored h_rel booted D1_new); vm_compute; reflexivity.
Defined.

Lemma MergeNode_stores_new_top_level_file_witness :
  fst (MergeNode hf booted) = Returned None.
Proof.
  rewrite (MergeNode_stores_new_top_level_file hf booted D1_new bare_root "f");
    vm_compute; reflexivity.
Defined.

Lemma MergeNode_counts_a_duplicate_again_witness :
  filemap (snd (MergeNode hf stored)) = filemap stored.
Proof.
  destruct (MergeNode_counts_a_duplicate_again hf stored D1_once root_with_child "f" 1
              f_blocks [hf]) as (_ & H & _);
    [vm_compute; reflexivity .. | constructor | exact H].
Defined.

Lemma MergeNode_appends_a_new_placement_witness :
  fst (MergeNode hf_again stored) = Returned None.
Proof.
  destruct (MergeNode_appends_a_new_placement hf_again stored D1_once root_with_child "f" 1
              f_blocks) as (H & _);
    [vm_compute; reflexivity .. | | exact H].
  intros Hin. apply list_elem_of_singleton in Hin. discriminate.
Defined.

Lemma MergeNode_rejects_a_file_over_a_directory_witness :
  MergeNode h_a with_dir_a
  = (Returned (Some "Attempted to add to filenode that does not exist!"), with_dir_a).
Proof.
  apply (MergeNode_rejects_a_file_over_a_directory h_a with_dir_a D1_new root_with_child
           "a" 1); vm_compute; reflexivity.
Defined.

Lemma MergeNode_keeps_index_ok_witness :
  index_ok (filemap (snd (MergeNode hf booted))).
Proof.
  apply (MergeNode_keeps_index_ok hf booted).
  intros p blks i arr Hp. vm_compute in Hp. discriminate.
Defined.

Lemma reachable_states_are_well_formed_witness :
  tree_ok booted /\ index_ok (filemap booted) /\ records_ok (datanodemap booted).
Proof.
  apply (reachable_states_are_well_formed booted).
  exact (reach_CheckConnection 0 1 D1_hb Init reach_Init).
Defined.

Lemma no_file_below_the_top_level_is_ever_merged_witness :
  fst (MergeNode hab booted) = Panicked nil_deref.
Proof.
  destruct (no_file_below_the_top_level_is_ever_merged hab booted D1_new "a" "b") as (H & _);
    [exact (reach_CheckConnection 0 1 D1_hb Init reach_Init)
    | vm_compute; reflexivity .. | exact H].
Defined.
End Instances.

Section DispatchInstances.
Import V1 Run1 Cases.

Lemma heartbeat_reply_witness :
  sendChannel (snd (HandlePacket 0 D1_hb booted))
  = sendChannel booted
    ++ [mkPacket "NN" (SRC D1_hb) (if listed D1_new then ACK else LIST) "" zeroBlock []].
Proof.
  destruct (heartbeat_reply 0 D1_hb booted D1_new) as (_ & H & _);
    [discriminate | discriminate | vm_compute; reflexivity .. | exact H].
Defined.

Lemma list_enqueues_and_marks_witness :
  headerChannel (snd (HandlePacket 0 D1_list booted))
  = headerChannel booted ++ Headers D1_list.
Proof.
  destruct (list_enqueues_and_marks 0 D1_list booted D1_new) as (_ & H & _);
    [discriminate | discriminate | vm_compute; reflexivity .. | exact H].
Defined.

Lemma listed_datanode_gets_ack_witness :
  sendChannel (snd (HandlePacket 0 D1_hb (snd (HandlePacket 0 D1_list booted))))
  = sendChannel (snd (HandlePacket 0 D1_list booted))
    ++ [mkPacket "NN" (SRC D1_list) ACK "" zeroBlock []].
Proof.
  apply (listed_datanode_gets_ack 0 0 D1_list D1_hb booted D1_new);
    [discriminate | discriminate | vm_compute; reflexivity ..].
Defined.

Lemma block_forwarded_to_client_witness :
  sendChannel (snd (HandlePacket 0 D1_block booted))
  = sendChannel booted ++ [mkPacket "NN" "C" BLOCK "" (Data D1_block) []].
Proof.
  destruct (block_forwarded_to_client 0 D1_block booted D1_new) as (_ & H & _);
    [discriminate | discriminate | vm_compute; reflexivity .. | exact H].
Defined.

Lemma getheaders_hit_witness :
  exists hs,
    Forall2 (heads_block f_blocks) (seq 0 (Z.to_nat (NumBlocks hf))) hs
    /\ fst (HandlePacket 0 get_f stored) = Returned tt
    /\ sendChannel (snd (HandlePacket 0 get_f stored))
       = sendChannel stored ++ [mkPacket "NN" "C" GETHEADERS "" zeroBlock hs]
    /\ stores (snd (HandlePacket 0 get_f stored)) = stores stored
    /\ headerChannel (snd (HandlePacket 0 get_f stored)) = headerChannel stored.
Proof.
  apply (getheaders_hit 0 get_f stored f_request hf [] f_blocks);
    [vm_compute; reflexivity .. | vm_compute; discriminate |].
  intros i Hi. assert (i = 0%nat) as -> by (vm_compute in Hi; lia).
  exists hf, []. vm_compute. reflexivity.
Defined.

Lemma getheaders_wrong_header_count_witness :
  sendChannel (snd (HandlePacket 0 get_two stored))
  = sendChannel stored ++ [mkPacket "NN" "C" ERROR "Invalid Header received" zeroBlock []].
Proof.
  destruct (getheaders_wrong_header_count 0 get_two stored) as (_ & H & _);
    [vm_compute; reflexivity .. | vm_compute; discriminate | exact H].
Defined.

Lemma distribute_block_then_ack_witness :
  exists k dn, datanodemap booted !! k = Some dn
    /\ fst (HandlePacket 0 distribute booted) = Returned tt
    /\ sendChannel (snd (HandlePacket 0 distribute booted))
       = sendChannel booted ++ [block_for dn (Data distribute); template distribute]
    /\ stores (snd (HandlePacket 0 distribute booted)) = stores booted
    /\ headerChannel (snd (HandlePacket 0 distribute booted)) = headerChannel booted.
Proof.
  apply (distribute_block_then_ack 0 distribute booted);
    [vm_compute; reflexivity .. | vm_compute; discriminate].
Defined.

Lemma DistributeBlock_addresses_a_registered_datanode_witness :
  exists r, sendChannel (snd (DistributeBlock 0 (mkBlock hf []) booted))
            = sendChannel booted ++ [r]
    /\ CMD r = BLOCK /\ is_Some (datanodemap booted !! DST r)
    /\ DatanodeID (Header (Data r)) = DST r /\ Bytes (Data r) = Bytes (mkBlock hf []).
Proof.
  apply (DistributeBlock_addresses_a_registered_datanode 0 (mkBlock hf []) booted);
    [exact (reach_CheckConnection 0 1 D1_hb Init reach_Init) | vm_compute; discriminate].
Defined.

Lemma new_datanode_registered_and_asked_to_list_witness :
  sendChannel (snd (CheckConnection 0 1 D1_hb Init))
  = sendChannel Init ++ [mkPacket "NN" (SRC D1_hb) LIST "" zeroBlock []].
Proof.
  destruct (new_datanode_registered_and_asked_to_list 0 1 D1_hb Init) as (_ & _ & _ & H & _);
    [discriminate | discriminate | vm_compute; reflexivity .. | exact H].
Defined.

Lemma reconnect_keeps_record_witness :
  datanodemap (snd (CheckConnection 0 2 D1_hb booted)) = datanodemap booted.
Proof.
  destruct (reconnect_keeps_record 0 2 D1_hb booted D1_new) as (H & _);
    [discriminate | discriminate | vm_compute; reflexivity .. | exact H].
Defined.

Lemma empty_source_registers_a_datanode_witness :
  datanodemap (snd (CheckConnection 0 1 nameless Init))
  = <["" := mkDatanode "" false 0]> (datanodemap (P := Packet) Init).
Proof.
  destruct (empty_source_registers_a_datanode 0 1 nameless Init) as (_ & H & _);
    [vm_compute; reflexivity .. | exact H].
Defined.

Lemma block_sent_to_the_empty_name_witness :
  sendChannel (snd (HandlePacket 0 distribute (snd (CheckConnection 0 1 nameless Init))))
  = sendChannel Init ++ [block_for (mkDatanode "" false 0) (Data distribute); template distribute].
Proof.
  apply (block_sent_to_the_empty_name 0 0 1 nameless distribute Init);
    vm_compute; reflexivity.
Defined.

Lemma SendPackets_delivers_in_order_witness :
  Sender.written (snd (Sender.SendPackets one_peer never_fails [to_D1; to_D1] idle))
  = Sender.written idle ++ omap (Sender.delivery one_peer never_fails) [to_D1; to_D1].
Proof.
  destruct (SendPackets_delivers_in_order one_peer never_fails [to_D1; to_D1] idle)
    as (_ & _ & H); [reflexivity | | exact H].
  repeat constructor; exists 1%nat; vm_compute; reflexivity.
Defined.

Lemma SendPackets_stops_at_an_unknown_destination_witness :
  fst (Sender.SendPackets one_peer never_fails ([to_D1] ++ to_D9 :: [to_D1]) idle)
  = Sender.Blocked.
Proof.
  destruct (SendPackets_stops_at_an_unknown_destination one_peer never_fails
              [to_D1] [to_D1] to_D9 idle) as (H & _);
    [reflexivity | | vm_compute; reflexivity | exact H].
  repeat constructor; exists 1%nat; vm_compute; reflexivity.
Defined.
End DispatchInstances.

Section LeastLoadedInstance.
Import V2.

Lemma V2_DistributeBlock_charges_the_least_loaded_witness :
  exists k dn,
    datanodemap Run2.booted !! k = Some dn
    /\ (forall k' dn', datanodemap Run2.booted !! k' = Some dn' -> (size dn <= size dn')%Z)
    /\ fst (DistributeBlock zeroBlock Run2.booted) = Returned tt
    /\ sendChannel (snd (DistributeBlock zeroBlock Run2.booted))
       = sendChannel Run2.booted
         ++ [mkPacket "NN" k BLOCK
               (mkBlock (mkBlockHeader k (Filename (Header zeroBlock)) (Size (Header zeroBlock))
                           (BlockNum (Header zeroBlock)) (NumBlocks (Header zeroBlock)))
                        (Bytes zeroBlock)) []]
    /\ datanodemap (snd (DistributeBlock zeroBlock Run2.booted))
       = <[k := mkDatanode (ID dn) (listed dn) (wrap64 (size dn + Size (Header zeroBlock)))]>
           (datanodemap Run2.booted)
    /\ (root (snd (DistributeBlock zeroBlock Run2.booted)),
        nodes (snd (DistributeBlock zeroBlock Run2.booted)),
        filemap (snd (DistributeBlock zeroBlock Run2.booted)))
       = (root Run2.booted, nodes Run2.booted, filemap Run2.booted).
Proof.
  apply (V2_DistributeBlock_charges_the_least_loaded zeroBlock Run2.booted).
  - vm_compute. discriminate.
  - intros k dn Hk.
    assert (datanodemap Run2.booted = {["D1" := mkDatanode "D1" false 0]}) as E
      by (vm_compute; reflexivity).
    rewrite E in Hk. apply lookup_singleton_Some in Hk as [<- <-]. reflexivity.
Defined.
End LeastLoadedInstance.

Section HeaderQueueInstance.
Import V1 Run1 Cases.

Lemma HandleBlockHeaders_ends_at_a_nested_header_witness :
  fst (HandleBlockHeaders ([h_unknown] ++ hab :: [hf]) booted) = Panicked nil_deref
  /\ filemap (snd (HandleBlockHeaders ([h_unknown] ++ hab :: [hf]) booted)) = filemap booted
  /\ datanodemap (snd (HandleBlockHeaders ([h_unknown] ++ hab :: [hf]) booted))
     = datanodemap booted.
Proof.
  apply (HandleBlockHeaders_ends_at_a_nested_header [h_unknown] [hf] hab booted D1_new "a" "b");
    [exact (reach_CheckConnection 0 1 D1_hb Init reach_Init)
    | repeat constructor; right; vm_compute; reflexivity
    | vm_compute; reflexivity ..].
Defined.
End HeaderQueueInstance.
